(** * rank_llm: the OpenAI backend of the listwise reranker

    A shallow embedding of [src/rank_llm/rerank/listwise/rank_openai.py]
    (class [SafeOpenaiBackend]) and of the constructor logic of
    [src/rank_llm/rerank/rankllm.py] (class [RankLLM]).

    Python integers are [Z]; [//] is [Z.div] and [%] is [Z.modulo] (both
    round toward minus infinity, as Python does), with the division by zero
    that Python raises written out.  Exceptions are values of [exn] carried
    by [outcome]; the mutable instance is threaded explicitly.  Console
    output ([print]) is not modelled. *)

From Stdlib Require Import ZArith String List Lia.
From stdpp Require Import base option list gmap strings pretty.

Local Open Scope string_scope.

(** ** Python-level vocabulary shared by both classes *)

Module Py.

Inductive exn : Type :=
  | ValueError (msg : string)
  | TypeError (msg : string)
  | KeyError (key : string)
  | IndexError
  | ZeroDivisionError
  | UnboundLocalError (var : string)
  | FileNotFoundError (path : string)
  | JSONDecodeError
  | Exception (msg : string).

(** [str(e)] for the exceptions whose text the code inspects. *)
Definition str (e : exn) : string :=
  match e with
  | ValueError m | TypeError m | Exception m => m
  | KeyError k => "'" +:+ k +:+ "'"
  | IndexError => "list index out of range"
  | ZeroDivisionError => "integer division or modulo by zero"
  | UnboundLocalError v =>
      "cannot access local variable '" +:+ v
        +:+ "' where it is not associated with a value"
  | FileNotFoundError p => "[Errno 2] No such file or directory: '" +:+ p +:+ "'"
  | JSONDecodeError => "Expecting value"
  end.

(** A call either returns a value or raises. *)
Inductive outcome (A : Type) : Type :=
  | Returned (a : A)
  | Raised (e : exn).
Arguments Returned {A} a.
Arguments Raised {A} e.

(** [needle in hay] on Python strings. *)
Fixpoint contains (needle hay : string) : bool :=
  String.prefix needle hay
  || match hay with
     | EmptyString => false
     | String _ rest => contains needle rest
     end.

(** [x or d] on an optional integer: [None] and [0] are falsy. *)
Definition or_int (x : option Z) (d : Z) : Z :=
  match x with
  | Some v => if Z.eqb v 0%Z then d else v
  | None => d
  end.

(** Truthiness of an optional integer. *)
Definition truthy_int (x : option Z) : bool :=
  match x with
  | Some v => negb (Z.eqb v 0%Z)
  | None => false
  end.

Lemma prefix_app (n b : string) : String.prefix n (n +:+ b) = true.
Proof.
  induction n as [|c n IH]; simpl.
  - now destruct b.
  - destruct (Ascii.ascii_dec c c); [exact IH | congruence].
Qed.

Lemma prefix_split (n h : string) :
  String.prefix n h = true -> exists b, h = n +:+ b.
Proof.
  revert h; induction n as [|c n IH]; intros h H.
  - now exists h.
  - destruct h as [|d h]; simpl in H; [discriminate|].
    destruct (Ascii.ascii_dec c d) as [->|]; [|discriminate].
    destruct (IH _ H) as [b ->]. now exists b.
Qed.

Lemma contains_here (n h : string) :
  String.prefix n h = true -> contains n h = true.
Proof. intros H. destruct h; simpl in *; rewrite H; reflexivity. Qed.

Lemma contains_inv (n h : string) :
  contains n h = true ->
  String.prefix n h = true
  \/ exists c rest, h = String c rest /\ contains n rest = true.
Proof.
  destruct h as [|c rest]; cbn [contains]; intros H;
    apply orb_true_iff in H as [H|H]; eauto; discriminate.
Qed.

(** [contains] is the substring test. *)
Lemma contains_spec (n h : string) :
  contains n h = true <-> exists a b, h = a +:+ (n +:+ b).
Proof.
  split.
  - induction h as [|c h IH]; intros H;
      apply contains_inv in H as [H|(c' & rest & E & H)].
    + destruct (prefix_split _ _ H) as [b Hb]. now exists "", b.
    + discriminate.
    + destruct (prefix_split _ _ H) as [b Hb]. now exists "", b.
    + injection E as Ec Er. subst c' rest.
      destruct (IH H) as (a & b & ->). now exists (String c a), b.
  - intros (a & b & ->). induction a as [|c a IH].
    + change ("" +:+ (n +:+ b)) with (n +:+ b).
      apply contains_here, prefix_app.
    + change (String c a +:+ (n +:+ b)) with (String c (a +:+ (n +:+ b))).
      cbn [contains]. rewrite IH. apply orb_true_r.
Qed.

End Py.

(** ** [rankllm.py]: template-driven construction of a ranker *)

Module RankLLM.
Import Py.

Inductive PromptMode : Type :=
  | UNSPECIFIED | RANK_GPT | RANK_GPT_APEER | LRL | MONOT5 | DUOT5 | LiT5.

Definition PromptMode_eqb (a b : PromptMode) : bool :=
  match a, b with
  | UNSPECIFIED, UNSPECIFIED | RANK_GPT, RANK_GPT
  | RANK_GPT_APEER, RANK_GPT_APEER | LRL, LRL
  | MONOT5, MONOT5 | DUOT5, DUOT5 | LiT5, LiT5 => true
  | _, _ => false
  end.

(** What [yaml.safe_load] hands back: a mapping with string keys, or some
    other YAML node (an empty file loads as [None]). *)
Inductive yaml_value : Type :=
  | YNull
  | YBool (b : bool)
  | YInt (z : Z)
  | YStr (s : string)
  | YSeq
  | YNested.

Inductive yaml_doc : Type :=
  | DocMap (m : gmap string yaml_value)
  | DocOther (v : yaml_value).

(** [template[key]]. *)
Definition subscript (t : yaml_doc) (key : string) : outcome yaml_value :=
  match t with
  | DocMap m =>
      match m !! key with
      | Some v => Returned v
      | None => Raised (KeyError key)
      end
  | DocOther YNull => Raised (TypeError "'NoneType' object is not subscriptable")
  | DocOther (YBool _) => Raised (TypeError "'bool' object is not subscriptable")
  | DocOther (YInt _) => Raised (TypeError "'int' object is not subscriptable")
  | DocOther (YStr _) => Raised (TypeError "string indices must be integers, not 'str'")
  | DocOther YSeq =>
      Raised (TypeError "list indices must be integers or slices, not str")
  | DocOther YNested => Raised (KeyError key)
  end.

(** [v == "literal"] for a loaded YAML value. *)
Definition eq_str (v : yaml_value) (lit : string) : bool :=
  match v with
  | YStr s => String.eqb s lit
  | _ => false
  end.

(** The five inference handlers [_create_handler] can build. *)
Inductive method : Type :=
  | SingleTurnListwise | MultiTurnListwise | RankFID | Pointwise | Pairwise.

(** The [method] string that selects each handler. *)
Definition method_name (k : method) : string :=
  match k with
  | SingleTurnListwise => "singleturn_listwise"
  | MultiTurnListwise => "multiturn_listwise"
  | RankFID => "rankfid"
  | Pointwise => "pointwise"
  | Pairwise => "pairwise"
  end.

Section Construction.

(** The handler classes, the file system and the two parsers live outside
    these two files. *)
Variable Handler : Type.
Variable new_handler : method -> yaml_doc -> outcome Handler.
Variable Example : Type.
Variable fs : gmap string string.
Variable yaml_safe_load : string -> outcome yaml_doc.
Variable json_load : string -> outcome (list Example).

(** The body of the [try] in [_create_handler]. *)
Definition select_handler (template : yaml_doc) : outcome Handler :=
  match subscript template "method" with
  | Raised e => Raised e
  | Returned v =>
      if eq_str v "singleturn_listwise" then new_handler SingleTurnListwise template
      else if eq_str v "multiturn_listwise" then new_handler MultiTurnListwise template
      else if eq_str v "rankfid" then new_handler RankFID template
      else if eq_str v "pointwise" then new_handler Pointwise template
      else if eq_str v "pairwise" then new_handler Pairwise template
      else Raised (ValueError "Invalid template method")
  end.

(** The bare [except:] turns every exception of the body into one
    [ValueError]. *)
Definition _create_handler (template : yaml_doc) : outcome Handler :=
  match select_handler template with
  | Returned h => Returned h
  | Raised _ => Raised (ValueError "Please provide a method section in the template")
  end.

Definition _load_few_shot_examples (file_path : string) : outcome (list Example) :=
  match fs !! file_path with
  | None => Raised (ValueError ("Few-shot examples file not found: " +:+ file_path))
  | Some text =>
      match json_load text with
      | Raised JSONDecodeError =>
          Raised (ValueError ("Invalid JSON format in few-shot examples file: " +:+ file_path))
      | Raised (FileNotFoundError _) =>
          Raised (ValueError ("Few-shot examples file not found: " +:+ file_path))
      | o => o
      end
  end.

Record fields : Type := {
  _model : string;
  _context_size : Z;
  _prompt_mode : option PromptMode;
  _num_few_shot_examples : Z;
  _few_shot_file : option string;
  _inference_handler : Handler;
  _examples : list Example
}.

(** The [try] block of [__init__], before its [except FileNotFoundError]. *)
Definition load_template (prompt_template_path : option string) : outcome Handler :=
  match prompt_template_path with
  | None => Raised (TypeError "Expected str or PathLike, got <class 'NoneType'>")
  | Some path =>
      match fs !! path with
      | None => Raised (FileNotFoundError path)
      | Some text =>
          match yaml_safe_load text with
          | Raised e => Raised e
          | Returned data =>
              match _create_handler data with
              | Raised e => Raised e
              | Returned h =>
                  (* the success message formats data['method'] *)
                  match subscript data "method" with
                  | Raised e => Raised e
                  | Returned _ => Returned h
                  end
              end
          end
      end
  end.

Definition __init__ (model : string) (context_size : Z)
    (prompt_mode : option PromptMode) (prompt_template_path : option string)
    (num_few_shot_examples : Z) (few_shot_file : option string)
  : outcome fields :=
  match load_template prompt_template_path with
  | Raised (FileNotFoundError _) =>
      Raised (ValueError "Prompt template file missing or not found")
  | Raised e => Raised e
  | Returned h =>
      let build ex :=
        {| _model := model; _context_size := context_size;
           _prompt_mode := prompt_mode;
           _num_few_shot_examples := num_few_shot_examples;
           _few_shot_file := few_shot_file;
           _inference_handler := h; _examples := ex |} in
      if (0 <? num_few_shot_examples)%Z then
        match few_shot_file with
        | None | Some "" =>
            Raised (ValueError
              "few_shot_examples_file must be provided when num_few_shot_examples > 0")
        | Some f =>
            match _load_few_shot_examples f with
            | Raised e => Raised e
            | Returned ex => Returned (build ex)
            end
        end
      else Returned (build [])
  end.

(** The [method] a template declares, when it is a mapping that has one. *)
Definition declared_method (t : yaml_doc) : option yaml_value :=
  match t with
  | DocMap m => m !! "method"
  | DocOther _ => None
  end.

(** The strategy a [method] value names, if it is one of the five. *)
Definition method_named (v : yaml_value) : option method :=
  if eq_str v "singleturn_listwise" then Some SingleTurnListwise
  else if eq_str v "multiturn_listwise" then Some MultiTurnListwise
  else if eq_str v "rankfid" then Some RankFID
  else if eq_str v "pointwise" then Some Pointwise
  else if eq_str v "pairwise" then Some Pairwise
  else None.

(** A template is unusable when [method] is missing or names no strategy. *)
Definition bad_method (t : yaml_doc) : Prop :=
  match declared_method t with
  | None => True
  | Some v => method_named v = None
  end.

Lemma select_handler_bad (t : yaml_doc) :
  bad_method t -> exists e, select_handler t = Raised e.
Proof.
  unfold bad_method, select_handler, declared_method, method_named.
  destruct t as [m|v]; cbn [subscript].
  - destruct (m !! "method") as [v|]; [|eauto].
    repeat (destruct (eq_str v _); [discriminate|]). eauto.
  - destruct v; eauto.
Qed.

Lemma _create_handler_bad (t : yaml_doc) :
  bad_method t ->
  _create_handler t =
    Raised (ValueError "Please provide a method section in the template").
Proof.
  intros H. unfold _create_handler.
  destruct (select_handler_bad t H) as [e ->]. reflexivity.
Qed.

(** C8. A template whose [method] is missing or is not one of the five
    recognised strategies makes [_create_handler] raise [ValueError], and
    since [__init__] calls it while constructing the ranker, the
    constructor itself raises that [ValueError]: no instance exists on
    which a ranking call could meet the error later. *)
Theorem bad_method_fails_construction
    (model : string) (context_size : Z) (prompt_mode : option PromptMode)
    (path text : string) (data : yaml_doc)
    (num_few_shot_examples : Z) (few_shot_file : option string) :
  fs !! path = Some text ->
  yaml_safe_load text = Returned data ->
  bad_method data ->
  _create_handler data =
    Raised (ValueError "Please provide a method section in the template")
  /\ __init__ model context_size prompt_mode (Some path)
       num_few_shot_examples few_shot_file =
     Raised (ValueError "Please provide a method section in the template").
Proof.
  intros Hfs Hload Hbad.
  pose proof (_create_handler_bad data Hbad) as Hc.
  split; [exact Hc|].
  unfold __init__, load_template. rewrite Hfs, Hload, Hc. reflexivity.
Qed.

(** *** Further properties of the constructor *)

Lemma eq_str_true (v : yaml_value) (lit : string) :
  eq_str v lit = true -> v = YStr lit.
Proof.
  destruct v; cbn; try discriminate. intros H. apply String.eqb_eq in H. congruence.
Qed.

Lemma select_handler_returned (t : yaml_doc) (h : Handler) :
  select_handler t = Returned h ->
  exists k, declared_method t = Some (YStr (method_name k))
            /\ new_handler k t = Returned h.
Proof.
  unfold select_handler, declared_method.
  destruct t as [m|v]; cbn [subscript].
  - destruct (m !! "method") as [v|]; [|discriminate].
    destruct (eq_str v "singleturn_listwise") eqn:E1;
      [apply eq_str_true in E1 as ->; exists SingleTurnListwise; auto|].
    destruct (eq_str v "multiturn_listwise") eqn:E2;
      [apply eq_str_true in E2 as ->; exists MultiTurnListwise; auto|].
    destruct (eq_str v "rankfid") eqn:E3;
      [apply eq_str_true in E3 as ->; exists RankFID; auto|].
    destruct (eq_str v "pointwise") eqn:E4;
      [apply eq_str_true in E4 as ->; exists Pointwise; auto|].
    destruct (eq_str v "pairwise") eqn:E5;
      [apply eq_str_true in E5 as ->; exists Pairwise; auto|].
    discriminate.
  - destruct v; discriminate.
Qed.

(** X20. [_create_handler] dispatches on the [method] string: a template
    naming one of the five strategies is handed to that strategy's handler
    class, whose handler is returned; and whatever goes wrong, a failing
    handler constructor included, surfaces as the one [ValueError] that
    asks for a method section (the ["Invalid template method"] error never
    leaves the function). *)
Theorem create_handler_dispatch :
  (forall (m : gmap string yaml_value) (k : method),
      m !! "method" = Some (YStr (method_name k)) ->
      _create_handler (DocMap m)
      = match new_handler k (DocMap m) with
        | Returned h => Returned h
        | Raised _ =>
            Raised (ValueError "Please provide a method section in the template")
        end)
  /\ (forall (t : yaml_doc) (e : exn),
        _create_handler t = Raised e ->
        e = ValueError "Please provide a method section in the template").
Proof.
  split.
  - intros m k Hm. unfold _create_handler, select_handler. cbn [subscript].
    rewrite Hm. destruct k; reflexivity.
  - intros t e. unfold _create_handler.
    destruct (select_handler t); [discriminate|]. congruence.
Qed.

(** X21. How loading the template fails: no path is a [TypeError] (which
    the constructor does not convert), a path to a file that does not exist
    is the [ValueError] about the missing template, and an error of the
    YAML parser is passed on as it is. *)
Theorem template_loading_errors
    (model : string) (context_size : Z) (prompt_mode : option PromptMode)
    (num_few_shot_examples : Z) (few_shot_file : option string) :
  __init__ model context_size prompt_mode None num_few_shot_examples few_shot_file
  = Raised (TypeError "Expected str or PathLike, got <class 'NoneType'>")
  /\ (forall path,
        fs !! path = None ->
        __init__ model context_size prompt_mode (Some path)
          num_few_shot_examples few_shot_file
        = Raised (ValueError "Prompt template file missing or not found"))
  /\ (forall path text e,
        fs !! path = Some text ->
        yaml_safe_load text = Raised e ->
        (forall p, e <> FileNotFoundError p) ->
        __init__ model context_size prompt_mode (Some path)
          num_few_shot_examples few_shot_file
        = Raised e).
Proof.
  split; [reflexivity|]. split.
  - intros path Hp. unfold __init__, load_template. now rewrite Hp.
  - intros path text e Hp Hy Hne. unfold __init__, load_template.
    rewrite Hp, Hy. destruct e; try reflexivity.
    exfalso. eapply Hne. reflexivity.
Qed.

(** X22. A ranker that was constructed is backed by its template: the
    template file exists, parses, names one of the five strategies, and
    the instance's inference handler is the one that strategy's class
    built from the parsed template; the plain arguments are stored as
    given. *)
Theorem constructed_ranker_is_sound
    (model : string) (context_size : Z) (prompt_mode : option PromptMode)
    (prompt_template_path : option string)
    (num_few_shot_examples : Z) (few_shot_file : option string) (self : fields) :
  __init__ model context_size prompt_mode prompt_template_path
    num_few_shot_examples few_shot_file = Returned self ->
  (exists path text data k,
      prompt_template_path = Some path
      /\ fs !! path = Some text
      /\ yaml_safe_load text = Returned data
      /\ declared_method data = Some (YStr (method_name k))
      /\ new_handler k data = Returned (_inference_handler self))
  /\ _model self = model
  /\ _context_size self = context_size
  /\ _prompt_mode self = prompt_mode
  /\ _num_few_shot_examples self = num_few_shot_examples
  /\ _few_shot_file self = few_shot_file.
Proof.
  unfold __init__.
  destruct (load_template prompt_template_path) as [h|e] eqn:Hl;
    [|destruct e; discriminate].
  assert (Hsound : exists path text data k,
             prompt_template_path = Some path
             /\ fs !! path = Some text
             /\ yaml_safe_load text = Returned data
             /\ declared_method data = Some (YStr (method_name k))
             /\ new_handler k data = Returned h).
  { unfold load_template in Hl.
    destruct prompt_template_path as [path|]; [|discriminate].
    destruct (fs !! path) as [text|] eqn:Hp; [|discriminate].
    destruct (yaml_safe_load text) as [data|] eqn:Hy; [|discriminate].
    destruct (_create_handler data) as [h'|] eqn:Hc; [|discriminate].
    destruct (subscript data "method"); [|discriminate].
    injection Hl as ->.
    unfold _create_handler in Hc.
    destruct (select_handler data) as [h''|] eqn:Hs; [|discriminate].
    injection Hc as ->.
    destruct (select_handler_returned _ _ Hs) as (k & Hk & Hn).
    exists path, text, data, k. auto. }
  destruct (0 <? num_few_shot_examples)%Z.
  - destruct few_shot_file as [[|c f]|]; try discriminate.
    destruct (_load_few_shot_examples _); [|discriminate].
    intros H. injection H as <-. cbn. split; [exact Hsound|repeat split].
  - intros H. injection H as <-. cbn. split; [exact Hsound|repeat split].
Qed.

(** X23. The few-shot file is read only when examples are asked for: with
    [num_few_shot_examples <= 0] a constructed ranker has no examples,
    whatever [few_shot_file] says; with [num_few_shot_examples > 0] a
    non-empty file name was given, the file exists, and the examples are
    what the JSON parser made of it. *)
Theorem few_shot_examples_are_loaded_on_demand
    (model : string) (context_size : Z) (prompt_mode : option PromptMode)
    (prompt_template_path : option string)
    (num_few_shot_examples : Z) (few_shot_file : option string) (self : fields) :
  __init__ model context_size prompt_mode prompt_template_path
    num_few_shot_examples few_shot_file = Returned self ->
  ((num_few_shot_examples <= 0)%Z -> _examples self = [])
  /\ ((0 < num_few_shot_examples)%Z ->
      exists f text,
        few_shot_file = Some f /\ f <> ""
        /\ fs !! f = Some text
        /\ json_load text = Returned (_examples self)).
Proof.
  unfold __init__.
  destruct (load_template prompt_template_path) as [h|e];
    [|destruct e; discriminate].
  destruct (Z.ltb_spec 0 num_few_shot_examples) as [Hpos|Hneg].
  - destruct few_shot_file as [[|c f]|]; try discriminate.
    unfold _load_few_shot_examples.
    destruct (fs !! String c f) as [text|] eqn:Hf; [|discriminate].
    destruct (json_load text) as [ex|e] eqn:Hj; [|destruct e; discriminate].
    intros H. injection H as <-. cbn [_examples]. split; [lia|].
    intros _. exists (String c f), text. repeat split; auto; discriminate.
  - intros H. injection H as <-. cbn [_examples]. split; [auto|lia].
Qed.

End Construction.

(** A two-file world: one template without [method], one naming an unknown
    strategy. *)
Definition demo_fs : gmap string string :=
  <["no_method.yaml" := "system_message: rank"]>
  (<["unknown.yaml" := "method: setwise"]> ∅).

Definition demo_yaml (text : string) : outcome yaml_doc :=
  if String.eqb text "method: setwise"
  then Returned (DocMap (<["method" := YStr "setwise"]> ∅))
  else if String.eqb text "system_message: rank"
  then Returned (DocMap (<["system_message" := YStr "rank"]> ∅))
  else Returned (DocOther YNull).

Definition demo_handler (k : method) (t : yaml_doc) : outcome method :=
  Returned k.

Definition demo_json (text : string) : outcome (list unit) := Returned [].

Lemma bad_method_fails_construction_witness :
  __init__ method demo_handler unit demo_fs demo_yaml demo_json
    "gpt-4" 4096 None (Some "unknown.yaml") 0 None =
  Raised (ValueError "Please provide a method section in the template").
Proof.
  refine (proj2 (bad_method_fails_construction method demo_handler unit
            demo_fs demo_yaml demo_json "gpt-4" 4096 None
            "unknown.yaml" "method: setwise"
            (DocMap (<["method" := YStr "setwise"]> ∅)) 0 None _ _ _)).
  - vm_compute. reflexivity.
  - reflexivity.
  - vm_compute. reflexivity.
Defined.

Example missing_method_is_rejected :
  __init__ method demo_handler unit demo_fs demo_yaml demo_json
    "gpt-4" 4096 None (Some "no_method.yaml") 0 None =
  Raised (ValueError "Please provide a method section in the template").
Proof. vm_compute. reflexivity. Qed.

(** A world with one usable template and a few-shot file. *)
Definition good_fs : gmap string string :=
  <["pairwise.yaml" := "method: pairwise"]>
  (<["shots.json" := "[{}, {}]"]> ∅).

Definition good_yaml (text : string) : outcome yaml_doc :=
  if String.eqb text "method: pairwise"
  then Returned (DocMap (<["method" := YStr "pairwise"]> ∅))
  else Raised (Exception "while scanning a simple key").

Definition two_shots (text : string) : outcome (list unit) :=
  if String.eqb text "[{}, {}]" then Returned [tt; tt] else Raised JSONDecodeError.

Definition pairwise_ranker : fields method unit :=
  {| _model := "gpt-4"; _context_size := 4096; _prompt_mode := None;
     _num_few_shot_examples := 2; _few_shot_file := Some "shots.json";
     _inference_handler := Pairwise; _examples := [tt; tt] |}.

Lemma create_handler_dispatch_witness :
  _create_handler method demo_handler
    (DocMap (<["method" := YStr "rankfid"]> ∅)) = Returned RankFID.
Proof.
  exact (proj1 (create_handler_dispatch method demo_handler)
           (<["method" := YStr "rankfid"]> ∅) RankFID eq_refl).
Defined.

Lemma template_loading_errors_witness :
  __init__ method demo_handler unit good_fs good_yaml two_shots
    "gpt-4" 4096 None (Some "absent.yaml") 0 None
  = Raised (ValueError "Prompt template file missing or not found").
Proof.
  exact (proj1 (proj2 (template_loading_errors method demo_handler unit
                         good_fs good_yaml two_shots "gpt-4" 4096 None 0 None))
           "absent.yaml" eq_refl).
Defined.

Lemma constructed_ranker_is_sound_witness :
  (exists path text data k,
      Some "pairwise.yaml" = Some path
      /\ good_fs !! path = Some text
      /\ good_yaml text = Returned data
      /\ declared_method data = Some (YStr (method_name k))
      /\ demo_handler k data = Returned (_inference_handler method unit pairwise_ranker))
  /\ _model method unit pairwise_ranker = "gpt-4"
  /\ _context_size method unit pairwise_ranker = 4096%Z
  /\ _prompt_mode method unit pairwise_ranker = None
  /\ _num_few_shot_examples method unit pairwise_ranker = 2%Z
  /\ _few_shot_file method unit pairwise_ranker = Some "shots.json".
Proof.
  apply (constructed_ranker_is_sound method demo_handler unit good_fs good_yaml
           two_shots "gpt-4" 4096 None (Some "pairwise.yaml") 2 (Some "shots.json")
           pairwise_ranker).
  vm_compute. reflexivity.
Defined.

Lemma few_shot_examples_are_loaded_on_demand_witness :
  ((2 <= 0)%Z -> _examples method unit pairwise_ranker = [])
  /\ ((0 < 2)%Z ->
      exists f text,
        Some "shots.json" = Some f /\ f <> ""
        /\ good_fs !! f = Some text
        /\ two_shots text = Returned (_examples method unit pairwise_ranker)).
Proof.
  apply (few_shot_examples_are_loaded_on_demand method demo_handler unit good_fs
           good_yaml two_shots "gpt-4" 4096 None (Some "pairwise.yaml") 2
           (Some "shots.json") pairwise_ranker).
  vm_compute. reflexivity.
Defined.

End RankLLM.

(** ** [rank_openai.py]: the OpenAI backend *)

Module SafeOpenaiBackend.
Import Py.
Local Open Scope list_scope.

(** *** Data of [_call_completion] *)

Inductive CompletionMode : Type := UNSPECIFIED | CHAT | TEXT.

(** A completion object, as far as the code reads it:
    [choices[0].message.content] of a chat completion, [choices[0].text]
    of a text completion. *)
Record completion_obj : Type := { choice_text : string }.

(** What the remote service does with one request. *)
Inductive reply : Type :=
  | Responds (c : completion_obj)
  | Throws (msg : string).

(** [Union[str, Dict[str, Any]]]. *)
Inductive value : Type :=
  | VText (s : string)
  | VCompletion (c : completion_obj).

(** The observable effects of [_call_completion]: a request sent through
    the client (chat requests carry [timeout=30]) and [time.sleep(0.1)]. *)
Inductive event : Type :=
  | Call (mode : CompletionMode) (timeout : option Z)
  | Sleep.

(** The local variable [completion] (unbound until first assigned), the
    number of requests sent so far, and the effects so far. *)
Record frame : Type := {
  completion : option value;
  calls : nat;
  trace : list event
}.

Definition ctx_marker : string := "This model's maximum context length is".
Definition filter_marker : string := "The response was filtered".
Definition reduce_length_sentinel : string := "ERROR::reduce_length".
Definition filtered_sentinel : string := "ERROR::The response was filtered".

Definition timeout_of (mode : CompletionMode) : option Z :=
  match mode with CHAT => Some 30%Z | _ => None end.

(** *** Data of the prompt builder *)

Local Open Scope Z_scope.

(** A prompt: plain text, or a list of chat messages, each a dict from
    field name to text (in insertion order). *)
Inductive prompt : Type :=
  | PText (s : string)
  | PMessages (msgs : list (list (string * string))).

(** A tiktoken encoding. *)
Definition encoder : Type := string -> list nat.

(** [a // b]. *)
Definition floordiv (a b : Z) : outcome Z :=
  if b =? 0 then Raised ZeroDivisionError else Returned (a / b).

(** How a bounded run of a [while True] loop ends: the call finished, or
    the fuel ran out with the loop still shrinking [max_length]. *)
Inductive run (A : Type) : Type :=
  | Finished (o : outcome A)
  | Shrinking (max_length : Z).
Arguments Finished {A} o.
Arguments Shrinking {A} max_length.

(** *** Data of [rerank_batch] *)

(** The keyword arguments [rerank_batch] looks up with [kwargs.get]. *)
Record kwargs : Type := {
  top_k_retrieve : option Z;
  window_size : option Z;
  stride : option Z;
  populate_invocations_history : option bool
}.

(** *** Data and helpers of [__init__]: keys, cursor, client *)

(** The [keys] argument: absent, one key, or a list of keys. *)
Inductive keys_arg : Type :=
  | KeysNone
  | KeysStr (key : string)
  | KeysList (keys : list string).

(** The keyword arguments handed to [OpenAI(...)]. *)
Record client_kwargs : Type := {
  api_key : string;
  http_client : option string;
  base_url : option string;
  default_headers : option (gmap string string)
}.

(** [l[i]] on a Python list: negative indices count from the end. *)
Definition py_index {A} (l : list A) (i : Z) : outcome A :=
  let n := Z.of_nat (length l) in
  let j := if i <? 0 then i + n else i in
  if (0 <=? j) && (j <? n)
  then match l !! Z.to_nat j with
       | Some x => Returned x
       | None => Raised IndexError
       end
  else Raised IndexError.

(** [a % b]. *)
Definition pymod (a b : Z) : outcome Z :=
  if b =? 0 then Raised ZeroDivisionError else Returned (a mod b).

Definition truthy_str (s : option string) : bool :=
  match s with
  | Some (String _ _) => true
  | _ => false
  end.

Definition PromptMode_value (m : RankLLM.PromptMode) : string :=
  match m with
  | RankLLM.UNSPECIFIED => "unspecified"
  | RankLLM.RANK_GPT => "rank_GPT"
  | RankLLM.RANK_GPT_APEER => "rank_GPT_APEER"
  | RankLLM.LRL => "LRL"
  | RankLLM.MONOT5 => "monot5"
  | RankLLM.DUOT5 => "duot5"
  | RankLLM.LiT5 => "LiT5"
  end.

Definition supported_mode (m : RankLLM.PromptMode) : bool :=
  existsb (RankLLM.PromptMode_eqb m)
    [RankLLM.RANK_GPT; RankLLM.RANK_GPT_APEER; RankLLM.LRL].

Definition default_template_path (prompt_mode : option RankLLM.PromptMode) : string :=
  match prompt_mode with
  | Some RankLLM.RANK_GPT =>
      "src/rank_llm/rerank/prompt_templates/rank_gpt_template.yaml"
  | Some RankLLM.RANK_GPT_APEER =>
      "src/rank_llm/rerank/prompt_templates/rank_gpt_apeer_template.yaml"
  | _ => "src/rank_llm/rerank/prompt_templates/rank_lrl_template.yaml"
  end.

(** The [HTTP-Referer] and [X-Title] headers taken from the OpenRouter
    configuration. *)
Definition openrouter_headers (config : gmap string string) : gmap string string :=
  let h1 := match config !! "site_url" with
            | Some v => <["HTTP-Referer" := v]> ∅
            | None => ∅
            end in
  match config !! "site_name" with
  | Some v => <["X-Title" := v]> h1
  | None => h1
  end.

Definition is_empty_map (m : gmap string string) : bool :=
  match map_to_list m with [] => true | _ => false end.

(** *** The model of the class

    What lies outside [rank_openai.py] is a parameter: the handler, the
    data classes, tiktoken, the remote service and the base class. *)

Section Model.

Variable Handler : Type.
Variable Candidate : Type.
Variable Result : Type.
Variable Example : Type.

(** **** [_call_completion] *)

Local Close Scope Z_scope.

(** [api n] is the service's answer to the [n]-th request (from 0) of one
    [_call_completion]. *)
Variable api : nat -> reply.
Variable completion_mode : CompletionMode.
Variable return_text : bool.

(** How the [try] block of one attempt ends. *)
Inductive attempt_end : Type :=
  | Break (f : frame)
  | Except (e : exn) (f : frame).

Definition try_body (f : frame) : attempt_end :=
  match completion_mode with
  | UNSPECIFIED =>
      (* the message's own formatting, "%V", raises before the intended
         ValueError is built *)
      Except (ValueError "unsupported format character 'V' (0x56) at index 30") f
  | _ =>
      let sent := {| completion := completion f;
                     calls := S (calls f);
                     trace := trace f ++ [Call completion_mode (timeout_of completion_mode)] |} in
      match api (calls f) with
      | Throws msg => Except (Exception msg) sent
      | Responds c =>
          if return_text then
            let text := choice_text c in
            let bound := {| completion := Some (VText text);
                            calls := calls sent; trace := trace sent |} in
            if Nat.eqb (String.length text) 0
            then Except (Exception "Empty completion") bound
            else Break bound
          else Break {| completion := Some (VCompletion c);
                        calls := calls sent; trace := trace sent |}
      end
  end.

Definition sleep (f : frame) : frame :=
  {| completion := completion f; calls := calls f; trace := trace f ++ [Sleep] |}.

(** [return completion], which fails when no attempt ever bound it. *)
Definition return_completion (f : frame) : outcome value :=
  match completion f with
  | Some v => Returned v
  | None => Raised (UnboundLocalError "completion")
  end.

(** [for i in range(n): try ... except ...], then [return completion]. *)
Fixpoint attempts (n : nat) (f : frame) : outcome value * frame :=
  match n with
  | O => (return_completion f, f)
  | S n' =>
      match try_body f with
      | Break f' => (return_completion f', f')
      | Except e f' =>
          if contains ctx_marker (str e)
          then (Returned (VText reduce_length_sentinel), f')
          else if contains filter_marker (str e)
          then (Returned (VText filtered_sentinel), f')
          else attempts n' (sleep f')
      end
  end.

Definition fresh : frame := {| completion := None; calls := 0; trace := [] |}.

Definition _call_completion : outcome value * frame := attempts 3 fresh.

(** A reply after which the loop sleeps and goes round again. *)
Definition transient (r : reply) : bool :=
  match r with
  | Throws msg => negb (contains ctx_marker msg) && negb (contains filter_marker msg)
  | Responds c => return_text && Nat.eqb (String.length (choice_text c)) 0
  end.

(** The effects of [k] attempts that each ended in a sleep. *)
Fixpoint retries (k : nat) : list event :=
  match k with
  | O => []
  | S k' => Call completion_mode (timeout_of completion_mode) :: Sleep :: retries k'
  end.

(** How many requests, and how many sleeps, a list of effects holds. *)
Definition is_call (e : event) : bool :=
  match e with Call _ _ => true | Sleep => false end.

Definition is_sleep (e : event) : bool :=
  match e with Sleep => true | Call _ _ => false end.

Definition requests_in (t : list event) : nat := length (List.filter is_call t).

Definition sleeps_in (t : list event) : nat := length (List.filter is_sleep t).

Local Open Scope Z_scope.

(** **** [get_num_tokens], [num_output_tokens], [create_prompt] *)

Variable generate_prompt :
  Handler -> Result -> Z -> Z -> Z -> Z -> list Example -> prompt.
Variable get_encoding : string -> option encoder.
Variable cl100k_base : encoder.

(** The fields of an instance the prompt builder reads, and the one it
    writes ([_output_token_estimate]). *)
Record instance : Type := {
  _model : string;
  _context_size : Z;
  _window_size : Z;
  _num_few_shot_examples : Z;
  _examples : list Example;
  _inference_handler : Handler;
  _output_token_estimate : option Z
}.

Definition set_output_token_estimate (self : instance) (v : option Z) : instance :=
  {| _model := _model self; _context_size := _context_size self;
     _window_size := _window_size self;
     _num_few_shot_examples := _num_few_shot_examples self;
     _examples := _examples self;
     _inference_handler := _inference_handler self;
     _output_token_estimate := v |}.

(** Modelled from the spec: [max_tokens], inherited from the listwise base
    class that is not among the sources, is the hard token ceiling
    [context_size] of the model. *)
Definition max_tokens (self : instance) : Z := _context_size self.

(** [try: tiktoken.get_encoding(self._model) except: cl100k_base]. *)
Definition encoding_for (self : instance) : encoder :=
  default cl100k_base (get_encoding (_model self)).

Definition len {A} (l : list A) : Z := Z.of_nat (length l).

Definition model_in (self : instance) (names : list string) : bool :=
  existsb (String.eqb (_model self)) names.

Definition tokens_per_message (self : instance) : Z :=
  if model_in self ["gpt-3.5-turbo-0301"; "gpt-3.5-turbo"] then 4
  else if model_in self ["gpt-4-0314"; "gpt-4"] then 3
  else 0.

Definition tokens_per_name (self : instance) : Z :=
  if model_in self ["gpt-3.5-turbo-0301"; "gpt-3.5-turbo"] then -1
  else if model_in self ["gpt-4-0314"; "gpt-4"] then 1
  else 0.

Definition count_message (self : instance) (num_tokens : Z)
    (message : list (string * string)) : Z :=
  fold_left
    (fun n kv =>
       let n := n + len (encoding_for self (snd kv)) in
       if String.eqb (fst kv) "name" then n + tokens_per_name self else n)
    message (num_tokens + tokens_per_message self).

Definition get_num_tokens (self : instance) (p : prompt) : Z :=
  match p with
  | PMessages msgs => fold_left (count_message self) msgs 0 + 3
  | PText s => 0 + len (encoding_for self s) + 3
  end.

(** [" > ".join([f"[{i+1}]" for i in range(n)])]. *)
Definition ranking_skeleton (n : Z) : string :=
  String.concat " > " (map (fun i => "[" +:+ pretty (i + 1) +:+ "]") (seqZ 0 n)).

(** [num_output_tokens]: returns the estimate and the instance with its
    cache possibly filled. *)
Definition num_output_tokens (self : instance) (current_window_size : option Z)
  : Z * instance :=
  let cws := default (_window_size self) current_window_size in
  if truthy_int (_output_token_estimate self) && (_window_size self =? cws)
  then (default 0 (_output_token_estimate self), self)
  else
    let estimate := len (encoding_for self (ranking_skeleton cws)) - 1 in
    match _output_token_estimate self with
    | None =>
        if _window_size self =? cws
        then (estimate, set_output_token_estimate self (Some estimate))
        else (estimate, self)
    | Some _ => (estimate, self)
    end.

(** How one pass through the body of the shrink loop ends. *)
Inductive pass_end : Type :=
  | Fits (p : prompt) (num_tokens : Z)
  | Shrink (max_length : Z)
  | Fail (e : exn).

Definition pass (self : instance) (result : Result) (rank_start rank_end max_length : Z)
  : pass_end * instance :=
  let p := generate_prompt (_inference_handler self) result rank_start rank_end
             max_length (_num_few_shot_examples self) (_examples self) in
  let num_tokens := get_num_tokens self p in
  let (out1, self1) := num_output_tokens self None in
  if num_tokens <=? max_tokens self - out1 then (Fits p num_tokens, self1)
  else
    let (out2, self2) := num_output_tokens self1 None in
    match floordiv (num_tokens - max_tokens self1 + out2)
            ((rank_end - rank_start) * 4) with
    | Raised e => (Fail e, self2)
    | Returned q => (Shrink (max_length - Z.max 1 q), self2)
    end.

(** [while True: ...] run for at most [fuel] passes. *)
Fixpoint shrink_loop (fuel : nat) (self : instance) (result : Result)
    (rank_start rank_end max_length : Z) : run (prompt * Z) * instance :=
  match fuel with
  | O => (Shrinking max_length, self)
  | S fuel' =>
      match pass self result rank_start rank_end max_length with
      | (Fits p n, self') => (Finished (Returned (p, n)), self')
      | (Shrink max_length', self') =>
          shrink_loop fuel' self' result rank_start rank_end max_length'
      | (Fail e, self') => (Finished (Raised e), self')
      end
  end.

Definition create_prompt (fuel : nat) (self : instance) (result : Result)
    (rank_start rank_end : Z) : run (prompt * Z) * instance :=
  match floordiv (_window_size self) (rank_end - rank_start) with
  | Raised e => (Finished (Raised e), self)
  | Returned q => shrink_loop fuel self result rank_start rank_end (300 * q)
  end.

(** The token budget of a prompt: context size minus the reserved output
    tokens. *)
Definition budget (self : instance) : Z :=
  max_tokens self - fst (num_output_tokens self None).

(** The measured size of the prompt rendered with a given [max_length]. *)
Definition rendered_tokens (self : instance) (result : Result)
    (rank_start rank_end max_length : Z) : Z :=
  get_num_tokens self
    (generate_prompt (_inference_handler self) result rank_start rank_end
       max_length (_num_few_shot_examples self) (_examples self)).

(** The amount by which a pass that does not fit lowers [max_length]. *)
Definition shrink_step (self : instance) (result : Result)
    (rank_start rank_end max_length : Z) : Z :=
  Z.max 1 ((rendered_tokens self result rank_start rank_end max_length - budget self)
           / ((rank_end - rank_start) * 4)).

(** Two states of one instance: every field but the cache agrees, and
    the reserved output tokens they report agree. *)
Definition evolves (s s' : instance) : Prop :=
  _model s' = _model s
  /\ _context_size s' = _context_size s
  /\ _window_size s' = _window_size s
  /\ _num_few_shot_examples s' = _num_few_shot_examples s
  /\ _examples s' = _examples s
  /\ _inference_handler s' = _inference_handler s
  /\ fst (num_output_tokens s' None) = fst (num_output_tokens s None).

(** **** [rerank_batch] *)

(** Modelled from the spec: a Request (the data classes are not among the
    sources) is a query string plus an ordered sequence of Candidates. *)
Record Request : Type := { query : string; candidates : list Candidate }.

(** Everything a sweep can read and change: the instance with its cache,
    the remote service, the clock. *)
Variable World : Type.

(** [self.sliding_windows], inherited from the listwise base class. *)
Variable sliding_windows :
  World -> Request -> Z -> Z -> Z -> Z -> bool -> bool -> bool ->
  outcome Result * World.

(** The arguments as [rerank_batch] resolves them before the loop. *)
Record resolved : Type := {
  r_rank_start : Z;
  r_rank_end : Z;
  r_window_size : Z;
  r_stride : Z;
  r_shuffle_candidates : bool;
  r_logging : bool;
  r_populate_invocations_history : bool
}.

Definition resolve (rank_start rank_end : Z) (shuffle_candidates logging : bool)
    (kw : kwargs) : resolved :=
  let top_k := default rank_end (top_k_retrieve kw) in
  {| r_rank_start := rank_start;
     r_rank_end := Z.min top_k rank_end;
     r_window_size := Z.min (default 20 (window_size kw)) top_k;
     r_stride := default 10 (stride kw);
     r_shuffle_candidates := shuffle_candidates;
     r_logging := logging;
     r_populate_invocations_history :=
       default false (populate_invocations_history kw) |}.

(** The call in the loop body. *)
Definition sweep (a : resolved) (w : World) (request : Request)
  : outcome Result * World :=
  sliding_windows w request
    (Z.max (r_rank_start a) 0)
    (Z.min (r_rank_end a) (Z.of_nat (length (candidates request))))
    (r_window_size a) (r_stride a)
    (r_shuffle_candidates a) (r_logging a) (r_populate_invocations_history a).

(** [for request in requests: results.append(sliding_windows(request, ...))]. *)
Fixpoint batch_loop (a : resolved) (w : World) (requests : list Request)
    (results : list Result) : outcome (list Result) * World :=
  match requests with
  | [] => (Returned results, w)
  | request :: rest =>
      match sweep a w request with
      | (Returned result, w') => batch_loop a w' rest (results ++ [result])
      | (Raised e, w') => (Raised e, w')
      end
  end.

Definition rerank_batch (w : World) (requests : list Request)
    (rank_start rank_end : Z) (shuffle_candidates logging : bool) (kw : kwargs)
  : outcome (list Result) * World :=
  batch_loop (resolve rank_start rank_end shuffle_candidates logging kw)
    w requests [].

(** Sweeps done one after the other: each starts in the world the
    previous one left, and the results line up with the requests. *)
Inductive sweeps (a : resolved) : World -> list Request -> list Result -> World -> Prop :=
  | sweeps_nil (w : World) : sweeps a w [] [] w
  | sweeps_cons (w w1 w2 : World) (request : Request) (result : Result)
      (rest : list Request) (results : list Result) :
      sweep a w request = (Returned result, w1) ->
      sweeps a w1 rest results w2 ->
      sweeps a w (request :: rest) (result :: results) w2.

(** **** [__init__] *)

(** What the listwise base class leaves on the instance. *)
Record listwise_fields : Type := {
  lw_model : string;
  lw_context_size : Z;
  lw_window_size : Z;
  lw_num_few_shot_examples : Z;
  lw_examples : list Example;
  lw_inference_handler : Handler
}.

(** [super().__init__], the constructor of the listwise base class, which
    is not among the sources. *)
Variable ListwiseRankLLM_init :
  string -> Z -> option RankLLM.PromptMode -> option string -> Z ->
  option string -> Z -> outcome listwise_fields.

Record backend : Type := {
  fields : instance;
  _keys : list string;
  _cur_key_id : Z;
  openrouter_config : gmap string string;
  client : client_kwargs
}.

Definition normalise_keys (keys : keys_arg) : outcome (list string) :=
  match keys with
  | KeysStr k => Returned [k]
  | KeysList (k :: ks) => Returned (k :: ks)
  | KeysList [] | KeysNone => Raised (ValueError "Please provide OpenAI Keys.")
  end.

Definition check_prompt_mode (prompt_mode : option RankLLM.PromptMode) : outcome unit :=
  match prompt_mode with
  | Some m =>
      if supported_mode m then Returned tt
      else Raised (ValueError
             ("unsupported prompt mode for GPT models: " +:+ PromptMode_value m
              +:+ ", expected rank_GPT, rank_GPT_APEER or LRL."))
  | None => Returned tt
  end.

Definition build_client (keys : list string) (cur_key_id : Z)
    (config : gmap string string) (proxy api_base : option string)
  : outcome client_kwargs :=
  match py_index keys cur_key_id with
  | Raised e => Raised e
  | Returned key =>
      Returned
        {| api_key := key;
           http_client := if truthy_str proxy then proxy else None;
           base_url := if truthy_str api_base then api_base else None;
           default_headers :=
             if truthy_str api_base
                && negb (is_empty_map config)
                && contains "openrouter.ai" (default "" api_base)
             then let headers := openrouter_headers config in
                  if is_empty_map headers then None else Some headers
             else None |}
  end.

Definition __init__ (model : string) (context_size : Z)
    (prompt_mode : option RankLLM.PromptMode) (prompt_template_path : option string)
    (num_few_shot_examples : Z) (few_shot_file : option string) (window_size : Z)
    (keys : keys_arg) (key_start_id : option Z) (proxy api_base : option string)
    (openrouter : option (gmap string string))
  : outcome backend :=
  match normalise_keys keys with
  | Raised e => Raised e
  | Returned ks =>
  match check_prompt_mode prompt_mode with
  | Raised e => Raised e
  | Returned _ =>
  let path := match prompt_template_path with
              | Some p => p
              | None => default_template_path prompt_mode
              end in
  match ListwiseRankLLM_init model context_size prompt_mode (Some path)
          num_few_shot_examples few_shot_file window_size with
  | Raised e => Raised e
  | Returned base =>
  let cur0 := or_int key_start_id 0 in
  match pymod cur0 (Z.of_nat (length ks)) with
  | Raised e => Raised e
  | Returned cur =>
  let config := default ∅ openrouter in
  match build_client ks cur config proxy api_base with
  | Raised e => Raised e
  | Returned c =>
      Returned
        {| fields :=
             {| _model := lw_model base;
                _context_size := lw_context_size base;
                _window_size := lw_window_size base;
                _num_few_shot_examples := lw_num_few_shot_examples base;
                _examples := lw_examples base;
                _inference_handler := lw_inference_handler base;
                _output_token_estimate := None |};
           _keys := ks;
           _cur_key_id := cur;
           openrouter_config := config;
           client := c |}
  end end end end end.

(** *** Properties of [_call_completion] *)

Local Close Scope Z_scope.

Lemma empty_completion_is_no_sentinel :
  contains ctx_marker (str (Exception "Empty completion")) = false
  /\ contains filter_marker (str (Exception "Empty completion")) = false.
Proof. split; vm_compute; reflexivity. Qed.

(** One attempt on a transient reply: the request is sent, the handler
    finds no marker, and [completion] is either untouched or bound to an
    empty text. *)
Lemma try_body_transient (f : frame) :
  completion_mode <> UNSPECIFIED ->
  transient (api (calls f)) = true ->
  exists e c',
    try_body f =
      Except e {| completion := c'; calls := S (calls f);
                  trace := trace f ++ [Call completion_mode (timeout_of completion_mode)] |}
    /\ contains ctx_marker (str e) = false
    /\ contains filter_marker (str e) = false
    /\ (c' = completion f \/ exists t, c' = Some (VText t) /\ String.length t = 0%nat).
Proof.
  intros Hmode Htr. unfold try_body.
  destruct (api (calls f)) as [c|msg] eqn:Hapi; cbn [transient] in Htr.
  - apply andb_true_iff in Htr as [-> Hlen]. rewrite Hlen.
    destruct empty_completion_is_no_sentinel as [H1 H2].
    destruct completion_mode; [congruence| |];
      (exists (Exception "Empty completion"), (Some (VText (choice_text c)));
       repeat split; auto; right; exists (choice_text c); split; auto;
       now apply Nat.eqb_eq).
  - apply andb_true_iff in Htr as [H1 H2].
    apply negb_true_iff in H1, H2.
    destruct completion_mode; [congruence| |];
      (exists (Exception msg), (completion f); repeat split; auto).
Qed.

(** [k] transient replies in a row cost [k] requests and [k] sleeps and
    leave the loop with [k] fewer attempts. *)
Lemma attempts_skip (k n : nat) :
  completion_mode <> UNSPECIFIED ->
  forall f,
    (forall j, (j < k)%nat -> transient (api (calls f + j)) = true) ->
    exists f',
      attempts (k + n) f = attempts n f'
      /\ calls f' = (calls f + k)%nat
      /\ trace f' = trace f ++ retries k
      /\ (completion f' = completion f
          \/ exists t, completion f' = Some (VText t) /\ String.length t = 0%nat).
Proof.
  intros Hmode. induction k as [|k IH]; intros f Htr.
  - exists f. cbn [retries Nat.add]. rewrite app_nil_r, Nat.add_0_r. auto.
  - assert (H0 : transient (api (calls f)) = true).
    { specialize (Htr 0%nat). rewrite Nat.add_0_r in Htr. apply Htr. lia. }
    destruct (try_body_transient f Hmode H0) as (e & c' & Hb & H1 & H2 & Hc).
    cbn [Nat.add attempts]. rewrite Hb, H1, H2.
    set (g := sleep _).
    destruct (IH g) as (f' & Ha & Hcalls & Htrace & Hcomp).
    { intros j Hj. subst g. cbn [sleep calls].
      replace (S (calls f) + j)%nat with (calls f + S j)%nat by lia.
      apply Htr. lia. }
    exists f'. split; [exact Ha|]. subst g. cbn [sleep calls trace completion] in *.
    split; [lia|]. split.
    + rewrite Htrace. cbn [retries]. rewrite <- !app_assoc. reflexivity.
    + destruct Hcomp as [Hcomp|Hcomp]; [|auto].
      rewrite Hcomp. exact Hc.
Qed.

(** However the service behaves, at most [n] requests are sent by [n]
    attempts, and effects are only ever appended. *)
Lemma attempts_calls_bound (n : nat) :
  forall f, (calls (snd (attempts n f)) <= calls f + n)%nat
            /\ (calls f <= calls (snd (attempts n f)))%nat.
Proof.
  induction n as [|n IH]; intros f; cbn [attempts snd].
  - lia.
  - unfold try_body.
    destruct completion_mode.
    + cbn [str]. destruct (contains ctx_marker _); cbn [snd]; [lia|].
      destruct (contains filter_marker _); cbn [snd]; [lia|].
      specialize (IH (sleep f)). cbn [sleep calls] in IH. lia.
    + destruct (api (calls f)) as [c|msg].
      * destruct return_text; cbn [snd calls]; [|lia].
        destruct (Nat.eqb _ 0); cbn [snd calls]; [|lia].
        destruct (contains ctx_marker _); cbn [snd calls]; [lia|].
        destruct (contains filter_marker _); cbn [snd calls]; [lia|].
        match goal with |- context [attempts n ?g] => specialize (IH g) end.
        cbn [sleep calls] in IH. lia.
      * destruct (contains ctx_marker _); cbn [snd calls]; [lia|].
        destruct (contains filter_marker _); cbn [snd calls]; [lia|].
        match goal with |- context [attempts n ?g] => specialize (IH g) end.
        cbn [sleep calls] in IH. lia.
    + destruct (api (calls f)) as [c|msg].
      * destruct return_text; cbn [snd calls]; [|lia].
        destruct (Nat.eqb _ 0); cbn [snd calls]; [|lia].
        destruct (contains ctx_marker _); cbn [snd calls]; [lia|].
        destruct (contains filter_marker _); cbn [snd calls]; [lia|].
        match goal with |- context [attempts n ?g] => specialize (IH g) end.
        cbn [sleep calls] in IH. lia.
      * destruct (contains ctx_marker _); cbn [snd calls]; [lia|].
        destruct (contains filter_marker _); cbn [snd calls]; [lia|].
        match goal with |- context [attempts n ?g] => specialize (IH g) end.
        cbn [sleep calls] in IH. lia.
Qed.

Lemma attempts_trace_grows (n : nat) :
  forall f, exists rest, trace (snd (attempts n f)) = trace f ++ rest.
Proof.
  induction n as [|n IH]; intros f; cbn [attempts snd].
  - exists []. now rewrite app_nil_r.
  - destruct (try_body f) as [f'|e f'] eqn:Hb.
    + unfold try_body in Hb.
      destruct completion_mode; [discriminate| |];
        (destruct (api (calls f)); [|discriminate];
         destruct return_text;
         [destruct (Nat.eqb _ 0); [discriminate|]|];
         injection Hb as <-; cbn [snd trace]; eauto).
    + assert (Hf' : exists r, trace f' = trace f ++ r).
      { unfold try_body in Hb.
        destruct completion_mode.
        - injection Hb as _ <-. exists []. now rewrite app_nil_r.
        - destruct (api (calls f)).
          + destruct return_text; [|discriminate].
            destruct (Nat.eqb _ 0); [|discriminate].
            injection Hb as _ <-. cbn [trace]. eauto.
          + injection Hb as _ <-. cbn [trace]. eauto.
        - destruct (api (calls f)).
          + destruct return_text; [|discriminate].
            destruct (Nat.eqb _ 0); [|discriminate].
            injection Hb as _ <-. cbn [trace]. eauto.
          + injection Hb as _ <-. cbn [trace]. eauto. }
      destruct Hf' as [r Hr].
      destruct (contains ctx_marker _); cbn [snd]; [eauto|].
      destruct (contains filter_marker _); cbn [snd]; [eauto|].
      destruct (IH (sleep f')) as [rest Hrest]. rewrite Hrest.
      cbn [sleep trace]. rewrite Hr, <- !app_assoc. eauto.
Qed.

(** C5. When the request of attempt [k] (earlier attempts, if any, having
    been transient) raises an error whose message contains
    [This model's maximum context length is] or [The response was filtered],
    [_call_completion] returns at once the sentinel string of that marker,
    [ERROR::reduce_length] for the first (which is tested first) and
    [ERROR::The response was filtered] for the second: that request is the
    last effect, with no sleep and no further request after it. *)
Theorem sentinel_short_circuits (k : nat) (msg : string) :
  completion_mode <> UNSPECIFIED ->
  (k < 3)%nat ->
  (forall j, (j < k)%nat -> transient (api j) = true) ->
  api k = Throws msg ->
  contains "This model's maximum context length is" msg = true
  \/ contains "The response was filtered" msg = true ->
  fst _call_completion =
    Returned (VText (if contains "This model's maximum context length is" msg
                     then "ERROR::reduce_length"
                     else "ERROR::The response was filtered"))
  /\ calls (snd _call_completion) = S k
  /\ trace (snd _call_completion) =
       retries k ++ [Call completion_mode (timeout_of completion_mode)].
Proof.
  intros Hmode Hk Htr Hapi Hmark.
  change (contains "This model's maximum context length is" msg)
    with (contains ctx_marker msg) in *.
  change (contains "The response was filtered" msg)
    with (contains filter_marker msg) in *.
  change (VText "ERROR::reduce_length") with (VText reduce_length_sentinel).
  change (VText "ERROR::The response was filtered")
    with (VText filtered_sentinel).
  unfold _call_completion.
  destruct (attempts_skip k (3 - k) Hmode fresh) as (f' & Ha & Hcalls & Htrace & _).
  { intros j Hj. cbn [fresh calls Nat.add]. now apply Htr. }
  replace (k + (3 - k))%nat with 3%nat in Ha by lia. rewrite Ha.
  cbn [fresh calls trace Nat.add app] in Hcalls, Htrace.
  destruct (3 - k)%nat as [|m] eqn:Hm; [lia|].
  cbn [attempts]. unfold try_body. rewrite Hcalls, Hapi, Htrace.
  destruct completion_mode; [congruence| |]; cbn [str];
    (destruct (contains ctx_marker msg) eqn:Hc; cbn [fst snd calls trace];
     [auto|]; destruct Hmark as [Hmark|Hmark]; [discriminate|];
     rewrite Hmark; cbn [fst snd calls trace]; auto).
Qed.

(** C6. With [return_text] set, a reply of attempt [k] whose text has
    length zero does not end the call: the request is followed by the
    fixed sleep, and while attempts remain a further request is sent, whose
    non-empty text is then what the call returns.  Never more than three
    requests are sent. *)
Theorem empty_completion_is_retried (k : nat) (c : completion_obj) :
  completion_mode <> UNSPECIFIED ->
  return_text = true ->
  (k < 3)%nat ->
  (forall j, (j < k)%nat -> transient (api j) = true) ->
  api k = Responds c ->
  String.length (choice_text c) = 0%nat ->
  (exists rest, trace (snd _call_completion) = retries (S k) ++ rest)
  /\ ((S k < 3)%nat -> (S (S k) <= calls (snd _call_completion))%nat)
  /\ (calls (snd _call_completion) <= 3)%nat
  /\ ((S k < 3)%nat ->
      forall c', api (S k) = Responds c' ->
                 String.length (choice_text c') <> 0%nat ->
                 fst _call_completion = Returned (VText (choice_text c'))).
Proof.
  intros Hmode Hrt Hk Htr Hapi Hlen. unfold _call_completion.
  assert (Htr' : forall j, (j < S k)%nat -> transient (api j) = true).
  { intros j Hj. destruct (Nat.eq_dec j k) as [->|Hne].
    - rewrite Hapi. cbn [transient]. rewrite Hrt, Hlen. reflexivity.
    - apply Htr. lia. }
  destruct (attempts_skip (S k) (3 - S k) Hmode fresh) as (f' & Ha & Hcalls & Htrace & _).
  { intros j Hj. cbn [fresh calls Nat.add]. now apply Htr'. }
  replace (S k + (3 - S k))%nat with 3%nat in Ha by lia. rewrite Ha.
  change (calls fresh) with 0%nat in Hcalls.
  change (trace fresh) with (@nil event) in Htrace.
  rewrite Nat.add_0_l in Hcalls. rewrite app_nil_l in Htrace.
  pose proof (attempts_calls_bound (3 - S k) f') as [Hub Hlb].
  destruct (attempts_trace_grows (3 - S k) f') as [rest Hrest].
  split; [|split; [|split]].
  - exists rest. now rewrite Hrest, Htrace.
  - intros Hmore.
    destruct (3 - S k)%nat as [|m] eqn:Hm; [lia|].
    cbn [attempts]. unfold try_body.
    destruct completion_mode; [congruence| |];
      (destruct (api (calls f')); [destruct return_text; [destruct (Nat.eqb _ 0)|]|];
       repeat (match goal with
               | |- context [if ?b then _ else _] => destruct b
               end);
       cbn [snd calls sleep];
       try lia;
       match goal with
       | |- context [attempts m ?g] =>
           pose proof (proj2 (attempts_calls_bound m g)) as Hg;
           cbn [calls sleep] in Hg; lia
       end).
  - lia.
  - intros Hmore c' Hapi' Hlen'.
    destruct (3 - S k)%nat as [|m] eqn:Hm; [lia|].
    cbn [attempts]. unfold try_body. rewrite Hcalls, Hapi', Hrt.
    apply Nat.eqb_neq in Hlen'. rewrite Hlen'.
    destruct completion_mode; [congruence| |]; reflexivity.
Qed.

Local Open Scope Z_scope.

(** *** Properties of the prompt builder *)

Lemma evolves_refl (s : instance) : evolves s s.
Proof. unfold evolves. repeat split; reflexivity. Qed.

Lemma evolves_trans (s1 s2 s3 : instance) :
  evolves s1 s2 -> evolves s2 s3 -> evolves s1 s3.
Proof. unfold evolves. intuition congruence. Qed.

Lemma evolves_get_num_tokens (s s' : instance) (p : prompt) :
  evolves s s' -> get_num_tokens s' p = get_num_tokens s p.
Proof.
  intros (Hm & _). unfold get_num_tokens, count_message, encoding_for,
    tokens_per_message, tokens_per_name, model_in.
  rewrite Hm. reflexivity.
Qed.

Lemma evolves_budget (s s' : instance) : evolves s s' -> budget s' = budget s.
Proof.
  intros (_ & Hc & _ & _ & _ & _ & He). unfold budget, max_tokens.
  rewrite Hc, He. reflexivity.
Qed.

Lemma evolves_rendered (s s' : instance) (r : Result) (rs re ml : Z) :
  evolves s s' -> rendered_tokens s' r rs re ml = rendered_tokens s r rs re ml.
Proof.
  intros H. unfold rendered_tokens. rewrite (evolves_get_num_tokens s s' _ H).
  destruct H as (_ & _ & _ & Hn & He & Hh & _). rewrite Hn, He, Hh. reflexivity.
Qed.

(** The estimate is stable: asking again, in the state the first call left
    behind, gives the same number. *)
Lemma num_output_tokens_evolves (s : instance) :
  evolves s (snd (num_output_tokens s None)).
Proof.
  destruct s as [m c w n ex h [v|]]; unfold evolves, num_output_tokens;
    cbn [default _output_token_estimate _window_size truthy_int];
    rewrite ?Z.eqb_refl, ?andb_true_r.
  - destruct (v =? 0) eqn:Hv; cbn [negb snd fst];
      repeat split; try reflexivity;
      cbn [default _output_token_estimate _window_size truthy_int];
      rewrite ?Z.eqb_refl, ?andb_true_r, ?Hv; reflexivity.
  - cbn [negb snd fst set_output_token_estimate _model _context_size
      _window_size _num_few_shot_examples _examples _inference_handler
      _output_token_estimate truthy_int default].
    repeat split; try reflexivity.
    rewrite ?Z.eqb_refl, ?andb_true_r. unfold encoding_for. cbn [_model].
    destruct (_ - 1 =? 0) eqn:He; cbn [negb fst default]; reflexivity.
Qed.

(** One pass, told through the measured size and the budget. *)
Lemma pass_cases (s : instance) (r : Result) (rs re ml : Z) :
  exists s',
    evolves s s'
    /\ snd (pass s r rs re ml) = s'
    /\ ((rendered_tokens s r rs re ml <= budget s
         /\ fst (pass s r rs re ml) =
              Fits (generate_prompt (_inference_handler s) r rs re ml
                      (_num_few_shot_examples s) (_examples s))
                   (rendered_tokens s r rs re ml))
        \/ (budget s < rendered_tokens s r rs re ml
            /\ rs <> re
            /\ fst (pass s r rs re ml) = Shrink (ml - shrink_step s r rs re ml))
        \/ (budget s < rendered_tokens s r rs re ml
            /\ rs = re
            /\ fst (pass s r rs re ml) = Fail ZeroDivisionError)).
Proof.
  pose proof (num_output_tokens_evolves s) as H1.
  pose proof (num_output_tokens_evolves (snd (num_output_tokens s None))) as H2.
  pose proof (evolves_trans _ _ _ H1 H2) as H12.
  unfold pass, shrink_step, rendered_tokens, budget in *.
  destruct (num_output_tokens s None) as [out1 s1] eqn:E1. cbn [fst snd] in *.
  destruct (Z.leb_spec (get_num_tokens s
              (generate_prompt (_inference_handler s) r rs re ml
                 (_num_few_shot_examples s) (_examples s)))
              (max_tokens s - out1)) as [Hle|Hgt].
  - exists s1. cbn [fst snd]. auto.
  - destruct (num_output_tokens s1 None) as [out2 s2] eqn:E2. cbn [fst snd] in *.
    assert (Hout : out2 = out1).
    { destruct H1 as (_&_&_&_&_&_&H). rewrite E2, E1 in H. exact H. }
    assert (Hmax : max_tokens s1 = max_tokens s)
      by (unfold max_tokens; destruct H1 as (_&H&_); exact H).
    rewrite Hout, Hmax. unfold floordiv.
    exists s2. destruct (Z.eqb_spec ((re - rs) * 4) 0) as [Hz|Hnz]; cbn [fst snd].
    + split; [exact H12|]. split; [reflexivity|]. right; right.
      repeat split; [lia|lia].
    + split; [exact H12|]. split; [reflexivity|]. right; left.
      split; [lia|]. split; [lia|].
      match goal with
      | |- context [(?a - ?b + ?c) / _] =>
          replace (a - b + c) with (a - (b - c)) by lia
      end.
      reflexivity.
Qed.

Lemma shrink_step_pos (s : instance) (r : Result) (rs re ml : Z) :
  1 <= shrink_step s r rs re ml.
Proof. unfold shrink_step. lia. Qed.

(** Whatever the loop returns was measured on the returned prompt and is
    within the budget. *)
Lemma shrink_loop_returns_fit (fuel : nat) :
  forall s r rs re ml p n s',
    shrink_loop fuel s r rs re ml = (Finished (Returned (p, n)), s') ->
    evolves s s' /\ n = get_num_tokens s p /\ n <= budget s.
Proof.
  induction fuel as [|fuel IH]; intros s r rs re ml p n s' H; cbn [shrink_loop] in H.
  - discriminate.
  - destruct (pass_cases s r rs re ml) as (s1 & Hev & Hs & Hcase).
    destruct (pass s r rs re ml) as [e sp]. cbn [fst snd] in *. subst sp.
    destruct Hcase as [(Hle & ->)|[(Hgt & Hne & ->)|(Hgt & Heq & ->)]].
    + injection H as <- <- <-. auto.
    + destruct (IH _ _ _ _ _ _ _ _ H) as (Hev' & Hn & Hb).
      split; [eapply evolves_trans; eauto|].
      rewrite <- (evolves_get_num_tokens s s1 p Hev), <- (evolves_budget s s1 Hev).
      auto.
    + discriminate.
Qed.

(** With a non-empty window the loop raises nothing. *)
Lemma shrink_loop_never_raises (fuel : nat) :
  forall s r rs re ml e s',
    rs <> re -> shrink_loop fuel s r rs re ml <> (Finished (Raised e), s').
Proof.
  induction fuel as [|fuel IH]; intros s r rs re ml e s' Hne H; cbn [shrink_loop] in H.
  - discriminate.
  - destruct (pass_cases s r rs re ml) as (s1 & Hev & Hs & Hcase).
    destruct (pass s r rs re ml) as [pe sp]. cbn [fst snd] in *. subst sp.
    destruct Hcase as [(Hle & ->)|[(Hgt & _ & ->)|(Hgt & Heq & ->)]].
    + discriminate.
    + exact (IH _ _ _ _ _ _ _ Hne H).
    + contradiction.
Qed.

(** If no rendering fits, the loop is still running after any number of
    passes, each of which lowered [max_length] by at least one. *)
Lemma never_fits_keeps_shrinking (s0 : instance) (r : Result) (rs re : Z) :
  rs <> re ->
  (forall ml, budget s0 < rendered_tokens s0 r rs re ml) ->
  forall fuel s ml, evolves s0 s ->
    exists ml' s', shrink_loop fuel s r rs re ml = (Shrinking ml', s')
                   /\ ml' <= ml - Z.of_nat fuel.
Proof.
  intros Hne Hnever. induction fuel as [|fuel IH]; intros s ml Hev.
  - exists ml, s. cbn [shrink_loop]. split; [reflexivity|lia].
  - cbn [shrink_loop].
    destruct (pass_cases s r rs re ml) as (s1 & Hev1 & Hs & Hcase).
    destruct (pass s r rs re ml) as [pe sp]. cbn [fst snd] in *. subst sp.
    specialize (Hnever ml).
    rewrite <- (evolves_budget _ _ Hev), <- (evolves_rendered _ _ r rs re ml Hev) in Hnever.
    destruct Hcase as [(Hle & ->)|[(Hgt & _ & ->)|(Hgt & Heq & ->)]].
    + lia.
    + destruct (IH s1 (ml - shrink_step s r rs re ml) (evolves_trans _ _ _ Hev Hev1))
        as (ml' & s' & Hrun & Hml').
      exists ml', s'. split; [exact Hrun|].
      pose proof (shrink_step_pos s r rs re ml). lia.
    + contradiction.
Qed.

(** If every rendering at or below some [floor] fits, the loop returns
    within [max_length - floor + 1] passes. *)
Lemma fits_below_terminates (s0 : instance) (r : Result) (rs re floor : Z) :
  rs <> re ->
  (forall ml, ml <= floor -> rendered_tokens s0 r rs re ml <= budget s0) ->
  forall fuel s ml, evolves s0 s ->
    (Z.to_nat (ml - floor) < fuel)%nat ->
    exists p n s', shrink_loop fuel s r rs re ml = (Finished (Returned (p, n)), s').
Proof.
  intros Hne Hfit. induction fuel as [|fuel IH]; intros s ml Hev Hfuel.
  - lia.
  - cbn [shrink_loop].
    destruct (pass_cases s r rs re ml) as (s1 & Hev1 & Hs & Hcase).
    destruct (pass s r rs re ml) as [pe sp]. cbn [fst snd] in *. subst sp.
    destruct Hcase as [(Hle & ->)|[(Hgt & _ & ->)|(Hgt & Heq & ->)]].
    + eauto.
    + assert (Hml : floor < ml).
      { destruct (Z.le_gt_cases ml floor) as [Hl|Hg]; [|lia].
        specialize (Hfit ml Hl).
        rewrite <- (evolves_budget _ _ Hev), <- (evolves_rendered _ _ r rs re ml Hev)
          in Hfit. lia. }
      pose proof (shrink_step_pos s r rs re ml).
      apply IH; [eapply evolves_trans; eauto|lia].
    + contradiction.
Qed.

(** C2. Whenever [create_prompt] returns a prompt and a token count, the
    count is [get_num_tokens] of that prompt and is at most [max_tokens()]
    minus [num_output_tokens()], both read on the instance as the call left
    it. *)
Theorem create_prompt_within_budget
    (fuel : nat) (self : instance) (result : Result) (rank_start rank_end : Z)
    (p : prompt) (n : Z) (self' : instance) :
  create_prompt fuel self result rank_start rank_end
    = (Finished (Returned (p, n)), self') ->
  n = get_num_tokens self' p
  /\ n <= max_tokens self' - fst (num_output_tokens self' None).
Proof.
  unfold create_prompt. destruct (floordiv _ _) as [q|e]; [|discriminate].
  intros H. apply shrink_loop_returns_fit in H as (Hev & Hn & Hb).
  rewrite (evolves_get_num_tokens _ _ p Hev).
  pose proof (evolves_budget _ _ Hev) as Hbud. unfold budget in *.
  split; [exact Hn|]. rewrite Hbud. exact Hb.
Qed.

(** C3 (as the code has it). The shrink loop has neither a floor nor a
    failure of its own: with a non-empty window [create_prompt] raises
    nothing, and when no rendering fits it is still looping after any
    number of passes, [max_length] having dropped by at least one per pass,
    below every bound. *)
Theorem shrink_loop_has_no_floor
    (fuel : nat) (self : instance) (result : Result) (rank_start rank_end : Z) :
  rank_start <> rank_end ->
  (forall e self',
      create_prompt fuel self result rank_start rank_end
        <> (Finished (Raised e), self'))
  /\ ((forall ml, budget self < rendered_tokens self result rank_start rank_end ml) ->
      exists ml' self',
        create_prompt fuel self result rank_start rank_end = (Shrinking ml', self')
        /\ ml' <= 300 * (_window_size self / (rank_end - rank_start)) - Z.of_nat fuel).
Proof.
  intros Hne. unfold create_prompt, floordiv.
  destruct (Z.eqb_spec (rank_end - rank_start) 0) as [Hz|Hnz]; [lia|].
  split.
  - intros e self'. now apply shrink_loop_never_raises.
  - intros Hnever.
    apply (never_fits_keeps_shrinking self result rank_start rank_end Hne Hnever).
    apply evolves_refl.
Qed.

(** C4 (as the code has it). With [rank_start < rank_end], a pass whose
    prompt does not fit lowers [max_length] by
    [max(1, overflow // (4 * (rank_end - rank_start)))], so by at least one
    and in proportion to the overflow; and if every rendering at or below
    some [floor] fits, [create_prompt] returns within
    [initial max_length - floor + 1] passes. *)
Theorem shrink_loop_progress
    (self : instance) (result : Result) (rank_start rank_end : Z) :
  rank_start < rank_end ->
  (forall ml,
      budget self < rendered_tokens self result rank_start rank_end ml ->
      fst (pass self result rank_start rank_end ml)
        = Shrink (ml - shrink_step self result rank_start rank_end ml)
      /\ 1 <= shrink_step self result rank_start rank_end ml
      /\ shrink_step self result rank_start rank_end ml
         = Z.max 1 ((rendered_tokens self result rank_start rank_end ml - budget self)
                    / ((rank_end - rank_start) * 4)))
  /\ (forall floor,
        (forall ml, ml <= floor ->
                    rendered_tokens self result rank_start rank_end ml <= budget self) ->
        forall fuel,
          (Z.to_nat (300 * (_window_size self / (rank_end - rank_start)) - floor) < fuel)%nat ->
          exists p n self',
            create_prompt fuel self result rank_start rank_end
              = (Finished (Returned (p, n)), self')).
Proof.
  intros Hlt. split.
  - intros ml Hover.
    destruct (pass_cases self result rank_start rank_end ml) as (s1 & _ & _ & Hcase).
    destruct Hcase as [(Hle & _)|[(_ & _ & Hs)|(_ & Heq & _)]]; [lia| |lia].
    split; [exact Hs|]. split; [apply shrink_step_pos|reflexivity].
  - intros floor Hfit fuel Hfuel. unfold create_prompt, floordiv.
    destruct (Z.eqb_spec (rank_end - rank_start) 0) as [Hz|Hnz]; [lia|].
    apply (fits_below_terminates self result rank_start rank_end floor);
      [lia|exact Hfit|apply evolves_refl|exact Hfuel].
Qed.

(** C10. With [rank_end = rank_start] the first line of [create_prompt],
    [300 * (window_size // (rank_end - rank_start))], raises
    [ZeroDivisionError] before the loop is entered; with
    [rank_start < rank_end] neither that division nor the one inside the
    loop can fail, and [create_prompt] raises nothing. *)
Theorem create_prompt_zero_division
    (fuel : nat) (self : instance) (result : Result) (rank_start rank_end : Z) :
  (rank_end = rank_start ->
     create_prompt fuel self result rank_start rank_end
       = (Finished (Raised ZeroDivisionError), self))
  /\ (rank_start < rank_end ->
       floordiv (_window_size self) (rank_end - rank_start)
         = Returned (_window_size self / (rank_end - rank_start))
       /\ forall e self',
            create_prompt fuel self result rank_start rank_end
              <> (Finished (Raised e), self')).
Proof.
  split.
  - intros ->. unfold create_prompt, floordiv. rewrite Z.sub_diag. reflexivity.
  - intros Hlt. unfold create_prompt, floordiv.
    destruct (Z.eqb_spec (rank_end - rank_start) 0) as [Hz|Hnz]; [lia|].
    split; [reflexivity|].
    intros e self'. apply shrink_loop_never_raises. lia.
Qed.

(** *** Properties of [rerank_batch] *)

Lemma sweeps_length (a : resolved) (w w' : World) (requests : list Request)
    (results : list Result) :
  sweeps a w requests results w' -> length results = length requests.
Proof. induction 1; cbn [length]; congruence. Qed.

(** The [i]-th result is the complete sweep of the [i]-th request. *)
Lemma sweeps_lookup (a : resolved) (w w' : World) (requests : list Request)
    (results : list Result) :
  sweeps a w requests results w' ->
  forall (i : nat) (request : Request),
    requests !! i = Some request ->
    exists wi wi' result,
      results !! i = Some result /\ sweep a wi request = (Returned result, wi').
Proof.
  induction 1 as [|w w1 w2 rq rs rest results Hs Hrest IH]; intros i request Hi.
  - discriminate.
  - destruct i as [|i]; cbn in Hi.
    + injection Hi as <-. exists w, w1, rs. auto.
    + destruct (IH i request Hi) as (wi & wi' & result & Hr & Hsw).
      exists wi, wi', result. auto.
Qed.

Lemma batch_loop_sweeps (a : resolved) (requests : list Request) :
  forall w acc out w',
    batch_loop a w requests acc = (Returned out, w') ->
    exists results, out = acc ++ results /\ sweeps a w requests results w'.
Proof.
  induction requests as [|request rest IH]; intros w acc out w' H;
    cbn [batch_loop] in H.
  - injection H as <- <-. exists []. rewrite app_nil_r. split; [reflexivity|constructor].
  - destruct (sweep a w request) as [[result|e] w1] eqn:Hs; [|discriminate].
    destruct (IH _ _ _ _ H) as (results & -> & Hrest).
    exists (result :: results). rewrite <- app_assoc. split; [reflexivity|].
    econstructor; eauto.
Qed.

Lemma sweeps_batch_loop (a : resolved) (w w' : World) (requests : list Request)
    (results : list Result) :
  sweeps a w requests results w' ->
  forall acc, batch_loop a w requests acc = (Returned (acc ++ results), w').
Proof.
  induction 1 as [|w w1 w2 rq rs rest results Hs Hrest IH]; intros acc;
    cbn [batch_loop].
  - now rewrite app_nil_r.
  - rewrite Hs, IH, <- app_assoc. reflexivity.
Qed.

(** C7. When [rerank_batch] returns, it returns exactly one Result per
    Request, in the order of the input, the [i]-th being what a complete
    [sliding_windows] sweep of the [i]-th Request returned; and each sweep
    ran in the state the previous one left, so one Request is finished
    before the next is started. *)
Theorem rerank_batch_sequential
    (w w' : World) (requests : list Request) (results : list Result)
    (rank_start rank_end : Z) (shuffle_candidates logging : bool) (kw : kwargs) :
  rerank_batch w requests rank_start rank_end shuffle_candidates logging kw
    = (Returned results, w') ->
  length results = length requests
  /\ sweeps (resolve rank_start rank_end shuffle_candidates logging kw)
       w requests results w'
  /\ forall (i : nat) (request : Request),
       requests !! i = Some request ->
       exists wi wi' result,
         results !! i = Some result
         /\ sweep (resolve rank_start rank_end shuffle_candidates logging kw)
              wi request = (Returned result, wi').
Proof.
  unfold rerank_batch. intros H.
  apply batch_loop_sweeps in H as (rs & -> & Hs). cbn [app].
  split; [eapply sweeps_length; eauto|]. split; [exact Hs|].
  eapply sweeps_lookup; eauto.
Qed.

(** Conversely, sweeps that all return make the batch return. *)
Lemma rerank_batch_complete
    (w w' : World) (requests : list Request) (results : list Result)
    (rank_start rank_end : Z) (shuffle_candidates logging : bool) (kw : kwargs) :
  sweeps (resolve rank_start rank_end shuffle_candidates logging kw)
    w requests results w' ->
  rerank_batch w requests rank_start rank_end shuffle_candidates logging kw
    = (Returned results, w').
Proof. intros H. unfold rerank_batch. now rewrite (sweeps_batch_loop _ _ _ _ _ H []). Qed.

(** *** Properties of [__init__] *)

Lemma normalise_keys_nonempty (keys : keys_arg) (ks : list string) :
  normalise_keys keys = Returned ks -> (0 < length ks)%nat.
Proof.
  destruct keys as [|k|[|k l]]; cbn; intros H; try discriminate;
    injection H as <-; cbn; lia.
Qed.

Lemma py_index_in_range {A} (l : list A) (i : Z) :
  0 <= i < Z.of_nat (length l) ->
  exists x, py_index l i = Returned x /\ l !! Z.to_nat i = Some x.
Proof.
  intros Hi. unfold py_index.
  destruct (Z.ltb_spec i 0) as [?|_]; [lia|].
  destruct (Z.leb_spec 0 i) as [_|?]; [|lia].
  destruct (Z.ltb_spec i (Z.of_nat (length l))) as [_|?]; [|lia].
  cbn [andb].
  destruct (l !! Z.to_nat i) as [x|] eqn:Hl; [eauto|].
  apply lookup_ge_None in Hl. lia.
Qed.

(** C9. Whatever [key_start_id] is given (none, zero, negative, beyond the
    pool), an instance that [__init__] returns has a non-empty key list,
    a cursor [_cur_key_id] with [0 <= _cur_key_id < len(_keys)], and a
    client built on the key under that cursor. *)
Theorem cursor_in_range_after_init
    (model : string) (context_size : Z)
    (prompt_mode : option RankLLM.PromptMode) (prompt_template_path : option string)
    (num_few_shot_examples : Z) (few_shot_file : option string) (window_size : Z)
    (keys : keys_arg) (key_start_id : option Z) (proxy api_base : option string)
    (openrouter : option (gmap string string)) (self : backend) :
  __init__ model context_size prompt_mode prompt_template_path
    num_few_shot_examples few_shot_file window_size
    keys key_start_id proxy api_base openrouter = Returned self ->
  normalise_keys keys = Returned (_keys self)
  /\ 0 <= _cur_key_id self < Z.of_nat (length (_keys self))
  /\ _cur_key_id self = or_int key_start_id 0 mod Z.of_nat (length (_keys self))
  /\ _keys self !! Z.to_nat (_cur_key_id self) = Some (api_key (client self)).
Proof.
  unfold __init__.
  destruct (normalise_keys keys) as [ks|e] eqn:Hk; [|discriminate].
  pose proof (normalise_keys_nonempty _ _ Hk) as Hlen.
  destruct (check_prompt_mode prompt_mode); [|discriminate].
  destruct (ListwiseRankLLM_init _ _ _ _ _ _ _) as [base|e]; [|discriminate].
  unfold pymod. destruct (Z.eqb_spec (Z.of_nat (length ks)) 0) as [?|Hnz]; [lia|].
  assert (Hr : 0 <= or_int key_start_id 0 mod Z.of_nat (length ks)
                 < Z.of_nat (length ks)) by (apply Z.mod_pos_bound; lia).
  unfold build_client.
  destruct (py_index_in_range ks _ Hr) as (key & -> & Hkey).
  intros H. injection H as <-. cbn [_keys _cur_key_id client api_key].
  auto.
Qed.

(** With keys and a supported mode, construction fails only where the
    base class does: the cursor never causes an error. *)
Lemma init_returns
    (model : string) (context_size : Z)
    (prompt_mode : option RankLLM.PromptMode) (prompt_template_path : option string)
    (num_few_shot_examples : Z) (few_shot_file : option string) (window_size : Z)
    (keys : keys_arg) (key_start_id : option Z) (proxy api_base : option string)
    (openrouter : option (gmap string string))
    (ks : list string) (base : listwise_fields) :
  normalise_keys keys = Returned ks ->
  check_prompt_mode prompt_mode = Returned tt ->
  ListwiseRankLLM_init model context_size prompt_mode
    (Some (match prompt_template_path with
           | Some p => p
           | None => default_template_path prompt_mode
           end))
    num_few_shot_examples few_shot_file window_size = Returned base ->
  exists self,
    __init__ model context_size prompt_mode prompt_template_path
      num_few_shot_examples few_shot_file window_size
      keys key_start_id proxy api_base openrouter = Returned self.
Proof.
  intros Hk Hm Hb. unfold __init__. rewrite Hk, Hm, Hb.
  pose proof (normalise_keys_nonempty _ _ Hk) as Hlen.
  unfold pymod. destruct (Z.eqb_spec (Z.of_nat (length ks)) 0) as [?|Hnz]; [lia|].
  assert (Hr : 0 <= or_int key_start_id 0 mod Z.of_nat (length ks)
                 < Z.of_nat (length ks)) by (apply Z.mod_pos_bound; lia).
  unfold build_client.
  destruct (py_index_in_range ks _ Hr) as (key & -> & _). eauto.
Qed.

(** *** Further properties of [_call_completion] *)

Local Close Scope Z_scope.

Lemma try_body_throws (f : frame) (msg : string) :
  completion_mode <> UNSPECIFIED ->
  api (calls f) = Throws msg ->
  try_body f =
    Except (Exception msg)
      {| completion := completion f; calls := S (calls f);
         trace := trace f ++ [Call completion_mode (timeout_of completion_mode)] |}.
Proof.
  intros Hmode Hapi. unfold try_body. rewrite Hapi.
  destruct completion_mode; [congruence| |]; reflexivity.
Qed.

Lemma try_body_success (f : frame) (c : completion_obj) :
  completion_mode <> UNSPECIFIED ->
  api (calls f) = Responds c ->
  (return_text = true -> String.length (choice_text c) <> 0) ->
  try_body f =
    Break {| completion :=
               Some (if return_text then VText (choice_text c) else VCompletion c);
             calls := S (calls f);
             trace := trace f ++ [Call completion_mode (timeout_of completion_mode)] |}.
Proof.
  intros Hmode Hapi Hlen. unfold try_body. rewrite Hapi.
  destruct return_text.
  - specialize (Hlen eq_refl). apply Nat.eqb_neq in Hlen. rewrite Hlen.
    destruct completion_mode; [congruence| |]; reflexivity.
  - destruct completion_mode; [congruence| |]; reflexivity.
Qed.

(** X1. The first reply that is neither an error nor (when text is asked
    for) empty ends the call: after [k] transient attempts the call returns
    that reply's text, or the completion object itself when
    [return_text] is off, having sent [k + 1] requests and slept [k]
    times. *)
Theorem first_success_is_returned (k : nat) (c : completion_obj) :
  completion_mode <> UNSPECIFIED ->
  k < 3 ->
  (forall j, j < k -> transient (api j) = true) ->
  api k = Responds c ->
  (return_text = true -> String.length (choice_text c) <> 0) ->
  fst _call_completion =
    Returned (if return_text then VText (choice_text c) else VCompletion c)
  /\ calls (snd _call_completion) = S k
  /\ trace (snd _call_completion) =
       retries k ++ [Call completion_mode (timeout_of completion_mode)].
Proof.
  intros Hmode Hk Htr Hapi Hlen. unfold _call_completion.
  destruct (attempts_skip k (3 - k) Hmode fresh) as (f' & Ha & Hcalls & Htrace & _).
  { intros j Hj. cbn [fresh calls Nat.add]. now apply Htr. }
  replace (k + (3 - k)) with 3 in Ha by lia. rewrite Ha.
  cbn [fresh calls trace Nat.add app] in Hcalls, Htrace.
  destruct (3 - k) as [|m] eqn:Hm; [lia|].
  cbn [attempts]. rewrite <- Hcalls in Hapi.
  rewrite (try_body_success f' c Hmode Hapi Hlen).
  cbn [return_completion completion fst snd calls trace].
  rewrite Hcalls, Htrace. auto.
Qed.

(** X2. When each of the three requests raises an error without a marker,
    nothing was ever bound to [completion]: after three requests and three
    sleeps the final [return completion] raises [UnboundLocalError]. *)
Theorem all_requests_raising_is_unbound (m0 m1 m2 : string) :
  completion_mode <> UNSPECIFIED ->
  api 0 = Throws m0 -> api 1 = Throws m1 -> api 2 = Throws m2 ->
  transient (Throws m0) = true ->
  transient (Throws m1) = true ->
  transient (Throws m2) = true ->
  fst _call_completion = Raised (UnboundLocalError "completion")
  /\ calls (snd _call_completion) = 3
  /\ trace (snd _call_completion) = retries 3.
Proof.
  intros Hmode H0 H1 H2 T0 T1 T2.
  cbn [transient] in T0, T1, T2.
  apply andb_true_iff in T0 as [A0 B0]. apply negb_true_iff in A0, B0.
  apply andb_true_iff in T1 as [A1 B1]. apply negb_true_iff in A1, B1.
  apply andb_true_iff in T2 as [A2 B2]. apply negb_true_iff in A2, B2.
  unfold _call_completion. cbn [attempts].
  rewrite (try_body_throws fresh m0 Hmode H0). cbn [str]. rewrite A0, B0.
  cbn [attempts].
  erewrite (try_body_throws _ m1 Hmode); [|cbn [sleep calls fresh]; exact H1].
  cbn [str]. rewrite A1, B1.
  cbn [attempts].
  erewrite (try_body_throws _ m2 Hmode); [|cbn [sleep calls fresh]; exact H2].
  cbn [str]. rewrite A2, B2.
  cbn. auto.
Qed.

Lemma requests_in_app (t u : list event) :
  requests_in (t ++ u) = requests_in t + requests_in u.
Proof. unfold requests_in. now rewrite List.filter_app, length_app. Qed.

Lemma sleeps_in_app (t u : list event) :
  sleeps_in (t ++ u) = sleeps_in t + sleeps_in u.
Proof. unfold sleeps_in. now rewrite List.filter_app, length_app. Qed.

(** What one attempt adds to the counters. *)
Lemma try_body_accounting (f : frame) :
  match try_body f with
  | Break f' =>
      calls f' = S (calls f)
      /\ requests_in (trace f') = S (requests_in (trace f))
      /\ sleeps_in (trace f') = sleeps_in (trace f)
  | Except _ f' =>
      exists d, d <= 1
      /\ calls f' = calls f + d
      /\ requests_in (trace f') = requests_in (trace f) + d
      /\ sleeps_in (trace f') = sleeps_in (trace f)
  end.
Proof.
  unfold try_body.
  destruct completion_mode.
  - exists 0. rewrite !Nat.add_0_r. auto.
  - destruct (api (calls f)) as [c|msg].
    + destruct return_text; [destruct (Nat.eqb _ 0)|];
        cbn [calls trace]; rewrite ?requests_in_app, ?sleeps_in_app;
        try (exists 1); cbn; repeat split; lia.
    + exists 1. cbn [calls trace]. rewrite requests_in_app, sleeps_in_app.
      cbn. repeat split; lia.
  - destruct (api (calls f)) as [c|msg].
    + destruct return_text; [destruct (Nat.eqb _ 0)|];
        cbn [calls trace]; rewrite ?requests_in_app, ?sleeps_in_app;
        try (exists 1); cbn; repeat split; lia.
    + exists 1. cbn [calls trace]. rewrite requests_in_app, sleeps_in_app.
      cbn. repeat split; lia.
Qed.

Lemma attempts_accounting (n : nat) :
  forall f,
    exists dc ds,
      calls (snd (attempts n f)) = calls f + dc
      /\ requests_in (trace (snd (attempts n f))) = requests_in (trace f) + dc
      /\ sleeps_in (trace (snd (attempts n f))) = sleeps_in (trace f) + ds
      /\ dc <= n /\ ds <= n /\ dc <= ds + 1.
Proof.
  induction n as [|n IH]; intros f; cbn [attempts].
  - exists 0, 0. cbn [snd]. repeat split; lia.
  - pose proof (try_body_accounting f) as Hb.
    destruct (try_body f) as [f'|e f'].
    + destruct Hb as (Hc & Hr & Hs). exists 1, 0. cbn [snd]. repeat split; lia.
    + destruct Hb as (d & Hd & Hc & Hr & Hs).
      destruct (contains ctx_marker (str e)); [exists d, 0; cbn [snd]; repeat split; lia|].
      destruct (contains filter_marker (str e)); [exists d, 0; cbn [snd]; repeat split; lia|].
      destruct (IH (sleep f')) as (dc & ds & Hc' & Hr' & Hs' & Hdc & Hds & Hrel).
      cbn [sleep calls trace] in Hc', Hr', Hs'.
      rewrite requests_in_app, sleeps_in_app in *.
      change (requests_in [Sleep]) with 0 in Hr'.
      change (sleeps_in [Sleep]) with 1 in Hs'.
      exists (d + dc), (S ds). repeat split; lia.
Qed.

(** X3. Whatever the service does and whichever mode is asked for, one
    [_call_completion] sends at most three requests and sleeps at most
    three times, and it never sends a request without having slept after
    each earlier one. *)
Theorem call_completion_effect_budget :
  requests_in (trace (snd _call_completion)) = calls (snd _call_completion)
  /\ calls (snd _call_completion) <= 3
  /\ sleeps_in (trace (snd _call_completion)) <= 3
  /\ calls (snd _call_completion) <= sleeps_in (trace (snd _call_completion)) + 1.
Proof.
  unfold _call_completion.
  destruct (attempts_accounting 3 fresh) as (dc & ds & Hc & Hr & Hs & Hdc & Hds & Hrel).
  cbn [fresh calls trace] in Hc, Hr, Hs.
  change (requests_in []) with 0 in Hr. change (sleeps_in []) with 0 in Hs.
  lia.
Qed.

Lemma length_zero_empty (s : string) : String.length s = 0 -> s = "".
Proof. destruct s; [reflexivity|discriminate]. Qed.

(** A text the loop returns is the one of the last request, unless it is a
    stale empty text or a sentinel. *)
Lemma attempts_returns_last_reply (n : nat) :
  return_text = true ->
  forall f t,
    (completion f = None \/ completion f = Some (VText "")) ->
    fst (attempts n f) = Returned (VText t) ->
    t <> "" -> t <> reduce_length_sentinel -> t <> filtered_sentinel ->
    0 < calls (snd (attempts n f))
    /\ api (pred (calls (snd (attempts n f)))) = Responds {| choice_text := t |}.
Proof.
  intros Hrt. induction n as [|n IH]; intros f t Hstale Hret Hne Hs1 Hs2;
    cbn [attempts] in *.
  - cbn [fst] in Hret. unfold return_completion in Hret.
    destruct Hstale as [E|E]; rewrite E in Hret; [discriminate|].
    injection Hret as <-. congruence.
  - unfold try_body in *. rewrite Hrt in *.
    destruct completion_mode.
    + cbn [str] in *.
      destruct (contains ctx_marker _); [cbn [fst] in Hret; congruence|].
      destruct (contains filter_marker _); [cbn [fst] in Hret; congruence|].
      apply IH; auto.
    + destruct (api (calls f)) as [[text]|msg] eqn:Hapi; cbn [choice_text] in *.
      * destruct (Nat.eqb (String.length text) 0) eqn:Hlen.
        -- cbn [str] in *.
           destruct (contains ctx_marker _); [cbn [fst] in Hret; congruence|].
           destruct (contains filter_marker _); [cbn [fst] in Hret; congruence|].
           apply IH; auto. cbn [sleep completion]. right.
           apply Nat.eqb_eq, length_zero_empty in Hlen. now rewrite Hlen.
        -- cbn [fst snd return_completion completion calls] in *.
           injection Hret as <-. cbn [pred]. split; [lia|exact Hapi].
      * cbn [str] in *.
        destruct (contains ctx_marker msg); [cbn [fst] in Hret; congruence|].
        destruct (contains filter_marker msg); [cbn [fst] in Hret; congruence|].
        apply IH; auto.
    + destruct (api (calls f)) as [[text]|msg] eqn:Hapi; cbn [choice_text] in *.
      * destruct (Nat.eqb (String.length text) 0) eqn:Hlen.
        -- cbn [str] in *.
           destruct (contains ctx_marker _); [cbn [fst] in Hret; congruence|].
           destruct (contains filter_marker _); [cbn [fst] in Hret; congruence|].
           apply IH; auto. cbn [sleep completion]. right.
           apply Nat.eqb_eq, length_zero_empty in Hlen. now rewrite Hlen.
        -- cbn [fst snd return_completion completion calls] in *.
           injection Hret as <-. cbn [pred]. split; [lia|exact Hapi].
      * cbn [str] in *.
        destruct (contains ctx_marker msg); [cbn [fst] in Hret; congruence|].
        destruct (contains filter_marker msg); [cbn [fst] in Hret; congruence|].
        apply IH; auto.
Qed.

(** X4. With [return_text] set, a text that [_call_completion] returns and
    that is neither empty nor one of the two sentinels is exactly what the
    service answered to the last request sent. *)
Theorem returned_text_is_last_reply (t : string) :
  return_text = true ->
  fst _call_completion = Returned (VText t) ->
  t <> "" -> t <> reduce_length_sentinel -> t <> filtered_sentinel ->
  0 < calls (snd _call_completion)
  /\ api (pred (calls (snd _call_completion))) = Responds {| choice_text := t |}.
Proof.
  intros Hrt Hret Hne Hs1 Hs2. unfold _call_completion in *.
  apply attempts_returns_last_reply; auto.
Qed.

Local Open Scope Z_scope.

(** *** Further properties of the token accounting and the prompt builder *)

(** X5. The output-token cache is filled at most once: in the state a call
    with the default window size leaves behind, a second call returns the
    same estimate and changes nothing. *)
Theorem num_output_tokens_settles (s : instance) :
  num_output_tokens (snd (num_output_tokens s None)) None
  = (fst (num_output_tokens s None), snd (num_output_tokens s None)).
Proof.
  destruct s as [m c w n ex h [v|]]; unfold num_output_tokens;
    cbn [default _output_token_estimate _window_size truthy_int];
    rewrite ?Z.eqb_refl, ?andb_true_r.
  - destruct (v =? 0) eqn:Hv; cbn [negb snd fst];
      cbn [default _output_token_estimate _window_size truthy_int];
      rewrite ?Z.eqb_refl, ?andb_true_r, ?Hv; reflexivity.
  - cbn [negb snd fst set_output_token_estimate _model _context_size
      _window_size _num_few_shot_examples _examples _inference_handler
      _output_token_estimate truthy_int default].
    rewrite ?Z.eqb_refl, ?andb_true_r. unfold encoding_for. cbn [_model].
    destruct (_ - 1 =? 0) eqn:He; cbn [negb fst default]; reflexivity.
Qed.

(** X6. Asking for a window size other than the instance's own neither
    reads nor writes the cache: the estimate is computed afresh from the
    encoder and the instance is returned as it was. *)
Theorem foreign_window_bypasses_cache (s : instance) (cws : Z) :
  cws <> _window_size s ->
  num_output_tokens s (Some cws)
  = (len (encoding_for s (ranking_skeleton cws)) - 1, s).
Proof.
  intros Hne. unfold num_output_tokens. cbn [default from_option id].
  destruct (Z.eqb_spec (_window_size s) cws) as [E|_]; [congruence|].
  rewrite andb_false_r. destruct (_output_token_estimate s); reflexivity.
Qed.

(** X7. A cache that holds a value is never written again, whatever window
    size is asked for; a cached zero counts as no cache at all (the
    estimate is recomputed on every call), while a cached non-zero value is
    what the default-window call returns. *)
Theorem filled_cache_is_kept (s : instance) (cws : option Z) (v : Z) :
  _output_token_estimate s = Some v ->
  snd (num_output_tokens s cws) = s
  /\ (v = 0 ->
      fst (num_output_tokens s cws)
      = len (encoding_for s (ranking_skeleton (default (_window_size s) cws))) - 1)
  /\ (v <> 0 -> fst (num_output_tokens s None) = v).
Proof.
  intros Hc. unfold num_output_tokens. rewrite Hc. cbn [truthy_int default].
  split; [|split].
  - destruct (negb (v =? 0) && _); reflexivity.
  - intros ->. reflexivity.
  - intros Hv. apply Z.eqb_neq in Hv. rewrite Hv, Z.eqb_refl. reflexivity.
Qed.

Lemma append_assoc (a b c : string) : (a +:+ b) +:+ c = a +:+ (b +:+ c).
Proof.
  induction a as [|x a IH]; [reflexivity|].
  change (String x a +:+ b) with (String x (a +:+ b)).
  change (String x (a +:+ b) +:+ c) with (String x ((a +:+ b) +:+ c)).
  change (String x a +:+ (b +:+ c)) with (String x (a +:+ (b +:+ c))).
  now rewrite IH.
Qed.

Lemma concat_snoc (sep x : string) (l : list string) :
  l <> [] -> String.concat sep (l ++ [x]) = String.concat sep l +:+ (sep +:+ x).
Proof.
  induction l as [|a l IH]; [congruence|]. intros _.
  destruct l as [|b l].
  - reflexivity.
  - change (String.concat sep ((a :: b :: l) ++ [x]))
      with (a +:+ (sep +:+ String.concat sep ((b :: l) ++ [x]))).
    rewrite IH by discriminate.
    change (String.concat sep (a :: b :: l))
      with (a +:+ (sep +:+ String.concat sep (b :: l))).
    now rewrite !append_assoc.
Qed.

(** X8. The string whose tokens are counted as the expected output is
    [[1] > [2] > ... > [n]]: empty for [n <= 0], ["[1]"] for one candidate,
    and each further candidate appends [" > [n+1]"]. *)
Theorem ranking_skeleton_shape :
  (forall n, n <= 0 -> ranking_skeleton n = "")
  /\ ranking_skeleton 1 = "[1]"
  /\ (forall n, 1 <= n ->
        ranking_skeleton (n + 1)
        = ranking_skeleton n +:+ (" > " +:+ ("[" +:+ pretty (n + 1) +:+ "]"))).
Proof.
  split; [|split].
  - intros n Hn. unfold ranking_skeleton. now rewrite seqZ_nil.
  - reflexivity.
  - intros n Hn. unfold ranking_skeleton.
    rewrite (seqZ_app 0 n 1) by lia. rewrite map_app.
    change (map (fun i => "[" +:+ pretty (i + 1) +:+ "]") (seqZ (0 + n) 1))
      with ["[" +:+ pretty (0 + n + 1) +:+ "]"].
    rewrite Z.add_0_l. apply concat_snoc.
    rewrite (seqZ_cons 0 n) by lia. discriminate.
Qed.

Lemma count_message_shift (self : instance) (acc : Z) (message : list (string * string)) :
  count_message self acc message = acc + count_message self 0 message.
Proof.
  unfold count_message.
  generalize (tokens_per_message self). intros tpm.
  replace (acc + tpm) with (acc + (0 + tpm)) by lia.
  generalize (0 + tpm). intros b. revert acc b.
  induction message as [|kv message IH]; intros acc b; cbn [fold_left].
  - reflexivity.
  - destruct (String.eqb (fst kv) "name").
    + rewrite <- IH. f_equal. lia.
    + rewrite <- IH. f_equal. lia.
Qed.

Lemma fold_count_shift (self : instance) (msgs : list (list (string * string))) (acc : Z) :
  fold_left (count_message self) msgs acc
  = acc + fold_left (count_message self) msgs 0.
Proof.
  revert acc. induction msgs as [|m msgs IH]; intros acc; cbn [fold_left].
  - lia.
  - rewrite (IH (count_message self acc m)), (IH (count_message self 0 m)).
    rewrite (count_message_shift self acc m). lia.
Qed.

(** X9. Token counts of chat prompts add up: the count of two message
    lists put together is the sum of their counts, with the three priming
    tokens counted once. *)
Theorem get_num_tokens_app (self : instance) (a b : list (list (string * string))) :
  get_num_tokens self (PMessages (a ++ b))
  = get_num_tokens self (PMessages a) + get_num_tokens self (PMessages b) - 3.
Proof.
  unfold get_num_tokens. rewrite fold_left_app, fold_count_shift. lia.
Qed.

(** X10. A prompt that fits at the initial budget is returned as rendered,
    after a single pass: nothing is shrunk when nothing has to be. *)
Theorem fitting_prompt_is_not_shrunk
    (fuel : nat) (self : instance) (result : Result) (rank_start rank_end : Z) :
  rank_start <> rank_end ->
  rendered_tokens self result rank_start rank_end
    (300 * (_window_size self / (rank_end - rank_start))) <= budget self ->
  fst (create_prompt (S fuel) self result rank_start rank_end)
  = Finished
      (Returned
         (generate_prompt (_inference_handler self) result rank_start rank_end
            (300 * (_window_size self / (rank_end - rank_start)))
            (_num_few_shot_examples self) (_examples self),
          rendered_tokens self result rank_start rank_end
            (300 * (_window_size self / (rank_end - rank_start))))).
Proof.
  intros Hne Hfit. unfold create_prompt, floordiv.
  destruct (Z.eqb_spec (rank_end - rank_start) 0) as [?|_]; [lia|].
  cbn [shrink_loop].
  destruct (pass_cases self result rank_start rank_end
              (300 * (_window_size self / (rank_end - rank_start))))
    as (s1 & _ & _ & Hcase).
  destruct (pass _ _ _ _ _) as [pe sp]. cbn [fst snd] in *.
  destruct Hcase as [(_ & ->)|[(Hgt & _)|(Hgt & _)]]; [reflexivity|lia|lia].
Qed.

Lemma shrink_loop_returns_rendering (fuel : nat) :
  forall s0 s r rs re ml p n s',
    evolves s0 s ->
    shrink_loop fuel s r rs re ml = (Finished (Returned (p, n)), s') ->
    exists ml', ml' <= ml
      /\ p = generate_prompt (_inference_handler s0) r rs re ml'
               (_num_few_shot_examples s0) (_examples s0)
      /\ n = rendered_tokens s0 r rs re ml'.
Proof.
  induction fuel as [|fuel IH]; intros s0 s r rs re ml p n s' Hev H;
    cbn [shrink_loop] in H.
  - discriminate.
  - destruct (pass_cases s r rs re ml) as (s1 & Hev1 & Hs & Hcase).
    destruct (pass s r rs re ml) as [pe sp]. cbn [fst snd] in *. subst sp.
    destruct Hcase as [(Hle & ->)|[(Hgt & Hne & ->)|(Hgt & Heq & ->)]].
    + injection H as <- <- <-. exists ml. split; [lia|].
      rewrite (evolves_rendered _ _ r rs re ml Hev).
      destruct Hev as (_ & _ & _ & Hn & He & Hh & _). rewrite Hn, He, Hh. auto.
    + destruct (IH s0 s1 r rs re _ p n s' (evolves_trans _ _ _ Hev Hev1) H)
        as (ml' & Hle & Hp & Hn).
      exists ml'. pose proof (shrink_step_pos s r rs re ml). split; [lia|auto].
    + discriminate.
Qed.

(** X11. Whatever [create_prompt] returns is a rendering by the inference
    handler of the same result and window, made with a [max_length] no
    larger than the initial [300 * (window_size // (rank_end - rank_start))],
    together with the measured size of that rendering. *)
Theorem returned_prompt_is_a_rendering
    (fuel : nat) (self : instance) (result : Result) (rank_start rank_end : Z)
    (p : prompt) (n : Z) (self' : instance) :
  create_prompt fuel self result rank_start rank_end
    = (Finished (Returned (p, n)), self') ->
  exists max_length,
    max_length <= 300 * (_window_size self / (rank_end - rank_start))
    /\ p = generate_prompt (_inference_handler self) result rank_start rank_end
             max_length (_num_few_shot_examples self) (_examples self)
    /\ n = rendered_tokens self result rank_start rank_end max_length.
Proof.
  unfold create_prompt. destruct (floordiv _ _) as [q|e] eqn:Hq; [|discriminate].
  unfold floordiv in Hq. destruct (_ =? 0); [discriminate|]. injection Hq as <-.
  intros H. eapply shrink_loop_returns_rendering; [apply evolves_refl|exact H].
Qed.

(** X12. Where the loop starts: a window wider than [_window_size] starts
    with a per-candidate budget of 0, a window of exactly [_window_size]
    with 300, and a reversed window ([rank_end < rank_start]) is not
    rejected but starts from a budget of -300 or less. *)
Theorem initial_budget_edges
    (self : instance) (result : Result) (rank_start rank_end : Z) :
  (0 <= _window_size self < rank_end - rank_start ->
     create_prompt 0 self result rank_start rank_end = (Shrinking 0, self))
  /\ (0 < _window_size self -> rank_end - rank_start = _window_size self ->
      create_prompt 0 self result rank_start rank_end = (Shrinking 300, self))
  /\ (0 < _window_size self -> rank_end < rank_start ->
      exists max_length,
        create_prompt 0 self result rank_start rank_end
          = (Shrinking max_length, self)
        /\ max_length <= -300).
Proof.
  unfold create_prompt, floordiv. split; [|split].
  - intros H. destruct (Z.eqb_spec (rank_end - rank_start) 0) as [?|_]; [lia|].
    rewrite Z.div_small by lia. reflexivity.
  - intros Hw He. destruct (Z.eqb_spec (rank_end - rank_start) 0) as [?|_]; [lia|].
    rewrite He, Z.div_same by lia. reflexivity.
  - intros Hw Hr. destruct (Z.eqb_spec (rank_end - rank_start) 0) as [?|_]; [lia|].
    eexists. split; [reflexivity|].
    pose proof (Z.div_mod (_window_size self) (rank_end - rank_start)).
    pose proof (Z.mod_neg_bound (_window_size self) (rank_end - rank_start)).
    nia.
Qed.

(** *** Further properties of [rerank_batch] *)

Lemma batch_loop_after_sweeps (a : resolved) (w w1 : World)
    (swept : list Request) (results : list Result) :
  sweeps a w swept results w1 ->
  forall rest acc,
    batch_loop a w (swept ++ rest) acc = batch_loop a w1 rest (acc ++ results).
Proof.
  induction 1 as [|w w1 w2 rq rs l results Hs Hrest IH]; intros rest acc.
  - now rewrite app_nil_r.
  - cbn [app batch_loop]. rewrite Hs, IH, <- app_assoc. reflexivity.
Qed.

(** X13. A sweep that raises aborts the whole batch: the exception of the
    first failing Request is what [rerank_batch] raises, the results of
    the Requests already swept are not returned, and the Requests after it
    are never swept (the state is the one the failing sweep left). *)
Theorem failing_sweep_aborts_batch
    (w w1 w2 : World) (swept : list Request) (results : list Result)
    (bad : Request) (rest : list Request) (e : exn)
    (rank_start rank_end : Z) (shuffle_candidates logging : bool) (kw : kwargs) :
  sweeps (resolve rank_start rank_end shuffle_candidates logging kw)
    w swept results w1 ->
  sweep (resolve rank_start rank_end shuffle_candidates logging kw) w1 bad
    = (Raised e, w2) ->
  rerank_batch w (swept ++ bad :: rest) rank_start rank_end
    shuffle_candidates logging kw
  = (Raised e, w2).
Proof.
  intros Hs Hbad. unfold rerank_batch.
  rewrite (batch_loop_after_sweeps _ _ _ _ _ Hs). cbn [batch_loop].
  now rewrite Hbad.
Qed.

(** X14. Batches compose: reranking [r1 ++ r2] is reranking [r1] and then,
    in the state that left, reranking [r2], with the results appended. *)
Theorem rerank_batch_app
    (w w1 w2 : World) (r1 r2 : list Request) (a b : list Result)
    (rank_start rank_end : Z) (shuffle_candidates logging : bool) (kw : kwargs) :
  rerank_batch w r1 rank_start rank_end shuffle_candidates logging kw
    = (Returned a, w1) ->
  rerank_batch w1 r2 rank_start rank_end shuffle_candidates logging kw
    = (Returned b, w2) ->
  rerank_batch w (r1 ++ r2) rank_start rank_end shuffle_candidates logging kw
    = (Returned (a ++ b), w2).
Proof.
  unfold rerank_batch. intros H1 H2.
  apply batch_loop_sweeps in H1 as (ra & -> & Hs1).
  apply batch_loop_sweeps in H2 as (rb & -> & Hs2).
  rewrite (batch_loop_after_sweeps _ _ _ _ _ Hs1).
  cbn [app]. rewrite (sweeps_batch_loop _ _ _ _ _ Hs2). reflexivity.
Qed.

(** X15. The range handed to each sweep is exactly the clamped one: the
    start is [max(rank_start, 0)], the end is the least of
    [top_k_retrieve], the caller's [rank_end] and the number of candidates
    of the Request, the window size is the least of [window_size] (20 when
    not given) and [top_k_retrieve], where [top_k_retrieve] is the caller's
    [rank_end] when not given; the stride is 10 and the history flag is
    off when not given, and the two flags are passed through.  So the
    start is never negative and never below the caller's, the end never
    exceeds the caller's [rank_end], the number of candidates or
    [top_k_retrieve], and the window size never exceeds [top_k_retrieve]. *)
Theorem sweep_range_is_clamped
    (w : World) (request : Request)
    (rank_start rank_end : Z) (shuffle_candidates logging : bool) (kw : kwargs) :
  let top_k := default rank_end (top_k_retrieve kw) in
  let rs := Z.max rank_start 0 in
  let re := Z.min (Z.min top_k rank_end) (Z.of_nat (length (candidates request))) in
  let ws := Z.min (default 20 (window_size kw)) top_k in
  sweep (resolve rank_start rank_end shuffle_candidates logging kw) w request
  = sliding_windows w request rs re ws (default 10 (stride kw))
      shuffle_candidates logging
      (default false (populate_invocations_history kw))
  /\ 0 <= rs /\ rank_start <= rs
  /\ (0 <= rank_start -> rs = rank_start)
  /\ re <= rank_end
  /\ re <= Z.of_nat (length (candidates request))
  /\ re <= top_k
  /\ ws <= top_k
  /\ ws <= default 20 (window_size kw).
Proof.
  intros top_k rs re ws. subst top_k rs re ws.
  unfold sweep, resolve.
  cbn [r_rank_start r_rank_end r_window_size r_stride r_shuffle_candidates
       r_logging r_populate_invocations_history].
  split; [reflexivity|]. lia.
Qed.

(** *** Further properties of [__init__] *)

(** X16. Argument errors of the constructor, in the order the code checks
    them: no keys (absent or an empty list) is a [ValueError] whatever else
    is passed; with keys, a prompt mode other than [RANK_GPT],
    [RANK_GPT_APEER] or [LRL] is a [ValueError] naming the mode. *)
Theorem init_argument_errors
    (model : string) (context_size : Z)
    (prompt_mode : option RankLLM.PromptMode) (prompt_template_path : option string)
    (num_few_shot_examples : Z) (few_shot_file : option string) (window_size : Z)
    (keys : keys_arg) (key_start_id : option Z) (proxy api_base : option string)
    (openrouter : option (gmap string string)) :
  (keys = KeysNone \/ keys = KeysList [] ->
     __init__ model context_size prompt_mode prompt_template_path
       num_few_shot_examples few_shot_file window_size
       keys key_start_id proxy api_base openrouter
     = Raised (ValueError "Please provide OpenAI Keys."))
  /\ (forall m,
        keys <> KeysNone -> keys <> KeysList [] ->
        prompt_mode = Some m ->
        m <> RankLLM.RANK_GPT -> m <> RankLLM.RANK_GPT_APEER -> m <> RankLLM.LRL ->
        __init__ model context_size prompt_mode prompt_template_path
          num_few_shot_examples few_shot_file window_size
          keys key_start_id proxy api_base openrouter
        = Raised (ValueError
            ("unsupported prompt mode for GPT models: " +:+ PromptMode_value m
             +:+ ", expected rank_GPT, rank_GPT_APEER or LRL."))).
Proof.
  split.
  - intros [->| ->]; reflexivity.
  - intros m Hk1 Hk2 -> H1 H2 H3. unfold __init__.
    destruct keys as [|k|[|k ks]]; try congruence;
      destruct m; try congruence; reflexivity.
Qed.

Lemma or_int_some (v : Z) : or_int (Some v) 0 = v.
Proof. unfold or_int. destruct (Z.eqb_spec v 0); congruence. Qed.

(** X17. The cursor depends on [key_start_id] only modulo the size of the
    pool: starting [j] whole rounds further on builds the same instance,
    and starting at [None] is starting at 0. *)
Theorem cursor_is_periodic
    (model : string) (context_size : Z)
    (prompt_mode : option RankLLM.PromptMode) (prompt_template_path : option string)
    (num_few_shot_examples : Z) (few_shot_file : option string) (window_size : Z)
    (ks : list string) (k j : Z) (proxy api_base : option string)
    (openrouter : option (gmap string string)) :
  __init__ model context_size prompt_mode prompt_template_path
    num_few_shot_examples few_shot_file window_size
    (KeysList ks) (Some (k + j * Z.of_nat (length ks))) proxy api_base openrouter
  = __init__ model context_size prompt_mode prompt_template_path
      num_few_shot_examples few_shot_file window_size
      (KeysList ks) (Some k) proxy api_base openrouter
  /\ __init__ model context_size prompt_mode prompt_template_path
       num_few_shot_examples few_shot_file window_size
       (KeysList ks) None proxy api_base openrouter
     = __init__ model context_size prompt_mode prompt_template_path
         num_few_shot_examples few_shot_file window_size
         (KeysList ks) (Some 0) proxy api_base openrouter.
Proof.
  split; [|reflexivity].
  unfold __init__. destruct ks as [|k0 ks]; [reflexivity|].
  cbn [normalise_keys].
  destruct (check_prompt_mode prompt_mode); [|reflexivity].
  destruct (ListwiseRankLLM_init _ _ _ _ _ _ _); [|reflexivity].
  rewrite !or_int_some. unfold pymod.
  destruct (Z.eqb_spec (Z.of_nat (length (k0 :: ks))) 0) as [E|E];
    [cbn [length] in E; lia|].
  rewrite Z.mod_add by exact E. reflexivity.
Qed.

(** X18. A single key given as a string is a pool of one: whatever
    [key_start_id] is, the instance holds the list of just that key, the
    cursor is 0 and the client is built on that key. *)
Theorem single_key_is_wrapped
    (model : string) (context_size : Z)
    (prompt_mode : option RankLLM.PromptMode) (prompt_template_path : option string)
    (num_few_shot_examples : Z) (few_shot_file : option string) (window_size : Z)
    (key : string) (key_start_id : option Z) (proxy api_base : option string)
    (openrouter : option (gmap string string)) (self : backend) :
  __init__ model context_size prompt_mode prompt_template_path
    num_few_shot_examples few_shot_file window_size
    (KeysStr key) key_start_id proxy api_base openrouter = Returned self ->
  _keys self = [key] /\ _cur_key_id self = 0 /\ api_key (client self) = key.
Proof.
  unfold __init__. cbn [normalise_keys].
  destruct (check_prompt_mode prompt_mode); [|discriminate].
  destruct (ListwiseRankLLM_init _ _ _ _ _ _ _); [|discriminate].
  cbn [length]. unfold pymod. change (Z.of_nat 1 =? 0) with false. cbn iota.
  rewrite Z.mod_1_r. cbn.
  intros H. injection H as <-. cbn. auto.
Qed.

Lemma openrouter_headers_lookup (config : gmap string string) :
  openrouter_headers config !! "HTTP-Referer" = config !! "site_url"
  /\ openrouter_headers config !! "X-Title" = config !! "site_name"
  /\ forall k, k <> "HTTP-Referer" -> k <> "X-Title" ->
               openrouter_headers config !! k = None.
Proof.
  unfold openrouter_headers.
  destruct (config !! "site_url") as [u|], (config !! "site_name") as [n|];
    repeat split; intros; simplify_map_eq; reflexivity.
Qed.

(** X19. The client gets extra headers only for OpenRouter: when the
    instance carries [default_headers], [api_base] contains
    ["openrouter.ai"] and the headers are exactly [HTTP-Referer] (the
    configured [site_url]) and [X-Title] (the configured [site_name]), at
    least one of them present; and the base URL is the given [api_base]. *)
Theorem headers_only_for_openrouter
    (model : string) (context_size : Z)
    (prompt_mode : option RankLLM.PromptMode) (prompt_template_path : option string)
    (num_few_shot_examples : Z) (few_shot_file : option string) (window_size : Z)
    (keys : keys_arg) (key_start_id : option Z) (proxy api_base : option string)
    (openrouter : option (gmap string string)) (self : backend)
    (headers : gmap string string) :
  __init__ model context_size prompt_mode prompt_template_path
    num_few_shot_examples few_shot_file window_size
    keys key_start_id proxy api_base openrouter = Returned self ->
  default_headers (client self) = Some headers ->
  (exists base, api_base = Some base
                /\ base_url (client self) = Some base
                /\ contains "openrouter.ai" base = true)
  /\ headers !! "HTTP-Referer" = default ∅ openrouter !! "site_url"
  /\ headers !! "X-Title" = default ∅ openrouter !! "site_name"
  /\ (forall k, k <> "HTTP-Referer" -> k <> "X-Title" -> headers !! k = None)
  /\ headers <> ∅.
Proof.
  unfold __init__.
  destruct (normalise_keys keys) as [ks|]; [|discriminate].
  destruct (check_prompt_mode prompt_mode); [|discriminate].
  destruct (ListwiseRankLLM_init _ _ _ _ _ _ _); [|discriminate].
  destruct (pymod _ _) as [cur|]; [|discriminate].
  unfold build_client. destruct (py_index ks cur) as [key|]; [|discriminate].
  intros H. injection H as <-. cbn [client default_headers base_url].
  destruct (truthy_str api_base) eqn:Hb; cbn [andb]; [|discriminate].
  destruct (negb (is_empty_map (default ∅ openrouter))); cbn [andb]; [|discriminate].
  destruct (contains "openrouter.ai" (default "" api_base)) eqn:Hc; [|discriminate].
  destruct (is_empty_map (openrouter_headers (default ∅ openrouter))) eqn:He;
    [discriminate|].
  intros H. injection H as <-.
  destruct (openrouter_headers_lookup (default ∅ openrouter)) as (H1 & H2 & H3).
  split; [|repeat split; auto].
  - destruct api_base as [base|]; [|discriminate]. exists base. auto.
  - intros E. rewrite E in He. discriminate.
Qed.

End Model.

(** *** Concrete services, handlers and instances to run the model on *)

(** [run_llm]: one chat completion asked for as text, returned with the
    number of tokens of the response. *)
Definition run_llm (Handler Example : Type)
    (get_encoding : string -> option encoder) (cl100k_base : encoder)
    (api : nat -> reply) (self : instance Handler Example) (p : prompt)
  : outcome (string * Z) * frame :=
  match _call_completion api CHAT true with
  | (Returned (VText response), f) =>
      (Returned
         (response,
          len (encoding_for Handler Example get_encoding cl100k_base self response)),
       f)
  | (Returned (VCompletion _), f) =>
      (Raised (TypeError "expected string or buffer"), f)
  | (Raised e, f) => (Raised e, f)
  end.

(** A service that answers every request with an empty text. *)
Definition always_empty (n : nat) : reply := Responds {| choice_text := "" |}.

(** A service that is rate-limited on every request. *)
Definition always_rate_limited (n : nat) : reply := Throws "Rate limit reached".

(** A service that is empty once and then ranks. *)
Definition empty_then_ranking (n : nat) : reply :=
  match n with
  | O => Responds {| choice_text := "" |}
  | _ => Responds {| choice_text := "[2] > [1]" |}
  end.

(** A service whose second request overflows the context window. *)
Definition limited_then_too_long (n : nat) : reply :=
  match n with
  | O => Throws "Rate limit reached"
  | _ => Throws "This model's maximum context length is 4097 tokens."
  end.

(** A service whose second request is refused by the content filter. *)
Definition limited_then_filtered (n : nat) : reply :=
  match n with
  | O => Throws "Rate limit reached"
  | _ => Throws "The response was filtered due to the prompt."
  end.

(** A service whose first error carries both markers. *)
Definition too_long_and_filtered (n : nat) : reply :=
  Throws "This model's maximum context length is 8. The response was filtered".

(** One token per character. *)
Definition char_encoder : encoder := fun s => repeat 0%nat (String.length s).

Definition no_encoding (name : string) : option encoder := None.

(** A handler that renders the query followed by the window's passages,
    each cut to [max_length] characters (to nothing when it is not
    positive).  A result is a query with its passages. *)
Definition truncate (max_length : Z) (s : string) : string :=
  substring 0 (Z.to_nat max_length) s.

Definition passage_prompt (h : unit) (r : string * list string)
    (rank_start rank_end max_length num_fewshot : Z) (examples : list unit) : prompt :=
  PMessages
    [[("role", "user");
      ("content",
        fst r +:+
        String.concat ""
          (map (truncate max_length)
             (take (Z.to_nat (rank_end - rank_start))
                (drop (Z.to_nat rank_start) (snd r)))))]].

Definition small_model : instance unit unit :=
  {| _model := "gpt-4o-mini"; _context_size := 64; _window_size := 2;
     _num_few_shot_examples := 0; _examples := []; _inference_handler := tt;
     _output_token_estimate := None |}.

Definition short_request : string * list string :=
  ("rank",
   ["the quick brown fox jumps over a lazy dog";
    "pack my box with five dozen liquor jugs."]).

(** A query that alone is larger than the budget of [small_model]. *)
Definition long_request : string * list string :=
  ("which of these two passages answers the question that was asked?",
   ["the quick brown fox jumps over a lazy dog";
    "pack my box with five dozen liquor jugs."]).

(** A sweep that reverses the window it is given and logs the query. *)
Definition reversing_sweep (w : list string) (request : Request string)
    (rank_start rank_end window_size stride : Z)
    (shuffle_candidates logging populate : bool)
  : outcome (list string) * list string :=
  let cs := candidates string request in
  let lo := Z.to_nat rank_start in
  let hi := Z.to_nat rank_end in
  (Returned (take lo cs ++ rev (take (hi - lo) (drop lo cs)) ++ drop hi cs),
   w ++ [query string request]).

Definition no_kwargs : kwargs :=
  {| top_k_retrieve := None; window_size := None; stride := None;
     populate_invocations_history := None |}.

Definition two_requests : list (Request string) :=
  [ {| query := "q1"; candidates := ["a"; "b"; "c"] |};
    {| query := "q2"; candidates := ["d"; "e"] |} ].


(** A base-class constructor that accepts everything. *)
Definition accepting_base (model : string) (context_size : Z)
    (prompt_mode : option RankLLM.PromptMode) (path : option string)
    (num_few_shot_examples : Z) (few_shot_file : option string) (window_size : Z)
  : outcome (listwise_fields unit unit) :=
  Returned {| lw_model := model; lw_context_size := context_size;
              lw_window_size := window_size;
              lw_num_few_shot_examples := num_few_shot_examples;
              lw_examples := []; lw_inference_handler := tt |}.

Definition three_keys : keys_arg := KeysList ["sk-a"; "sk-b"; "sk-c"].

Definition pooled_backend (key_start_id : option Z) : outcome (backend unit unit) :=
  __init__ unit unit accepting_base "gpt-4o-mini" 4096 None None 0 None 20
    three_keys key_start_id None None None.

Definition negative_start : backend unit unit :=
  {| fields := {| _model := "gpt-4o-mini"; _context_size := 4096;
                  _window_size := 20; _num_few_shot_examples := 0;
                  _examples := []; _inference_handler := tt;
                  _output_token_estimate := None |};
     _keys := ["sk-a"; "sk-b"; "sk-c"];
     _cur_key_id := 2;
     openrouter_config := ∅;
     client := {| api_key := "sk-c"; http_client := None; base_url := None;
                  default_headers := None |} |}.

(** *** The model run on them *)

Local Close Scope Z_scope.

(** C1 (evaluation at the failing input). Three empty chat completions in a
    row: every attempt is spent, and the call returns the empty text as if
    it were the model's answer. *)
Theorem exhausted_retries_return_empty_text :
  _call_completion always_empty CHAT true =
    (Returned (VText ""),
     {| completion := Some (VText "");
        calls := 3;
        trace := [Call CHAT (Some 30%Z); Sleep;
                  Call CHAT (Some 30%Z); Sleep;
                  Call CHAT (Some 30%Z); Sleep] |}).
Proof. vm_compute. reflexivity. Qed.

(** When every request raises instead, no value was ever bound and the
    final [return completion] fails. *)
Example exhausted_retries_all_raising :
  fst (_call_completion always_rate_limited CHAT true) =
    Raised (UnboundLocalError "completion").
Proof. vm_compute. reflexivity. Qed.

Lemma sentinel_short_circuits_witness :
  (fst (_call_completion limited_then_too_long CHAT true) =
     Returned (VText "ERROR::reduce_length")
   /\ calls (snd (_call_completion limited_then_too_long CHAT true)) = 2%nat
   /\ trace (snd (_call_completion limited_then_too_long CHAT true)) =
        [Call CHAT (Some 30%Z); Sleep; Call CHAT (Some 30%Z)])
  /\ (fst (_call_completion limited_then_filtered TEXT false) =
        Returned (VText "ERROR::The response was filtered")
      /\ calls (snd (_call_completion limited_then_filtered TEXT false)) = 2%nat
      /\ trace (snd (_call_completion limited_then_filtered TEXT false)) =
           [Call TEXT None; Sleep; Call TEXT None])
  /\ (fst (_call_completion too_long_and_filtered CHAT true) =
        Returned (VText "ERROR::reduce_length")
      /\ calls (snd (_call_completion too_long_and_filtered CHAT true)) = 1%nat
      /\ trace (snd (_call_completion too_long_and_filtered CHAT true)) =
           [Call CHAT (Some 30%Z)]).
Proof.
  split; [|split].
  - refine (sentinel_short_circuits limited_then_too_long CHAT true 1
              "This model's maximum context length is 4097 tokens." _ _ _ _ _).
    + discriminate.
    + lia.
    + intros j Hj. assert (j = 0%nat) as -> by lia. vm_compute. reflexivity.
    + reflexivity.
    + left. vm_compute. reflexivity.
  - refine (sentinel_short_circuits limited_then_filtered TEXT false 1
              "The response was filtered due to the prompt." _ _ _ _ _).
    + discriminate.
    + lia.
    + intros j Hj. assert (j = 0%nat) as -> by lia. vm_compute. reflexivity.
    + reflexivity.
    + right. vm_compute. reflexivity.
  - refine (sentinel_short_circuits too_long_and_filtered CHAT true 0
              "This model's maximum context length is 8. The response was filtered"
              _ _ _ _ _).
    + discriminate.
    + lia.
    + intros j Hj. lia.
    + reflexivity.
    + left. vm_compute. reflexivity.
Defined.

Lemma empty_completion_is_retried_witness :
  (exists rest,
      trace (snd (_call_completion empty_then_ranking CHAT true)) =
        retries CHAT 1 ++ rest)
  /\ ((1 < 3)%nat ->
      (2 <= calls (snd (_call_completion empty_then_ranking CHAT true)))%nat)
  /\ (calls (snd (_call_completion empty_then_ranking CHAT true)) <= 3)%nat
  /\ ((1 < 3)%nat ->
      forall c', empty_then_ranking 1 = Responds c' ->
                 String.length (choice_text c') <> 0%nat ->
                 fst (_call_completion empty_then_ranking CHAT true) =
                   Returned (VText (choice_text c'))).
Proof.
  refine (empty_completion_is_retried empty_then_ranking CHAT true 0
            {| choice_text := "" |} _ _ _ _ _ _).
  - discriminate.
  - reflexivity.
  - lia.
  - intros j Hj. lia.
  - reflexivity.
  - reflexivity.
Defined.

Example empty_then_ranking_returns_ranking :
  fst (_call_completion empty_then_ranking CHAT true) = Returned (VText "[2] > [1]").
Proof. vm_compute. reflexivity. Qed.

Local Open Scope Z_scope.

Lemma length_append (a b : string) :
  String.length (a +:+ b) = (String.length a + String.length b)%nat.
Proof.
  induction a as [|c a IH]; [reflexivity|].
  change (String c a +:+ b) with (String c (a +:+ b)).
  cbn [String.length]. now rewrite IH.
Qed.

Lemma small_model_budget :
  budget unit unit no_encoding char_encoder small_model = 56.
Proof. vm_compute. reflexivity. Qed.

Lemma small_model_rendered (r : string * list string) (ml : Z) :
  rendered_tokens unit (string * list string) unit passage_prompt
    no_encoding char_encoder small_model r 0 2 ml
  = 7 + Z.of_nat (String.length (fst r))
    + Z.of_nat (String.length
                  (String.concat "" (map (truncate ml) (take 2 (snd r))))).
Proof.
  unfold rendered_tokens, passage_prompt, get_num_tokens, count_message.
  cbn [fold_left fst snd].
  change ("content" =? "name")%string with false.
  change ("role" =? "name")%string with false.
  cbn iota.
  change (tokens_per_message unit unit small_model) with 0.
  change (encoding_for unit unit no_encoding char_encoder small_model)
    with char_encoder.
  change (Z.to_nat (2 - 0)) with 2%nat. change (Z.to_nat 0) with 0%nat.
  cbn [drop _inference_handler _num_few_shot_examples _examples small_model].
  unfold len, char_encoder. rewrite !repeat_length, length_append.
  rewrite drop_0. cbn [String.length]. lia.
Qed.

Lemma long_request_never_fits (ml : Z) :
  budget unit unit no_encoding char_encoder small_model
  < rendered_tokens unit (string * list string) unit passage_prompt
      no_encoding char_encoder small_model long_request 0 2 ml.
Proof.
  rewrite small_model_budget, small_model_rendered.
  cbn [fst long_request String.length]. lia.
Qed.

Lemma truncate_nonpos (ml : Z) (s : string) : ml <= 0 -> truncate ml s = "".
Proof.
  intros H. unfold truncate. rewrite Z2Nat.nonpos by exact H. now destruct s.
Qed.

Lemma short_request_fits_when_cut (ml : Z) :
  ml <= 0 ->
  rendered_tokens unit (string * list string) unit passage_prompt
    no_encoding char_encoder small_model short_request 0 2 ml
  <= budget unit unit no_encoding char_encoder small_model.
Proof.
  intros H. rewrite small_model_budget, small_model_rendered.
  cbn [snd short_request take map]. rewrite !(truncate_nonpos ml _ H).
  vm_compute. discriminate.
Qed.

(** The empty text of three empty completions reaches the caller of
    [run_llm] as an ordinary response of zero tokens. *)
Example run_llm_passes_empty_text_on :
  fst (run_llm unit unit no_encoding char_encoder always_empty small_model
         (PText "rank"))
  = Returned ("", 0).
Proof. vm_compute. reflexivity. Qed.

Lemma create_prompt_within_budget_witness :
  exists self',
    create_prompt unit (string * list string) unit passage_prompt
      no_encoding char_encoder 100 small_model short_request 0 2
    = (Finished
         (Returned
            (PMessages
               [[("role", "user");
                 ("content", "rankthe quick brown fox jupack my box with five ")]],
             55)),
       self')
    /\ 55 = get_num_tokens unit unit no_encoding char_encoder self'
              (PMessages
                 [[("role", "user");
                   ("content", "rankthe quick brown fox jupack my box with five ")]])
    /\ 55 <= max_tokens unit unit self'
             - fst (num_output_tokens unit unit no_encoding char_encoder self' None).
Proof.
  eexists. split.
  - vm_compute. reflexivity.
  - apply (create_prompt_within_budget unit (string * list string) unit
             passage_prompt no_encoding char_encoder
             100 small_model short_request 0 2).
    vm_compute. reflexivity.
Defined.

(** C3, refuted as stated: on [long_request] the loop has taken
    [max_length] to [-71] after 100 passes and to [-371] after 400, without
    failing and without stopping; it passes below every floor. *)
Lemma shrink_loop_passes_every_floor :
  fst (create_prompt unit (string * list string) unit passage_prompt
         no_encoding char_encoder 100 small_model long_request 0 2)
    = Shrinking (-71)
  /\ fst (create_prompt unit (string * list string) unit passage_prompt
            no_encoding char_encoder 400 small_model long_request 0 2)
       = Shrinking (-371)
  /\ (forall floor, exists fuel ml self',
         create_prompt unit (string * list string) unit passage_prompt
           no_encoding char_encoder fuel small_model long_request 0 2
           = (Shrinking ml, self')
         /\ ml < floor).
Proof.
  split; [vm_compute; reflexivity|]. split; [vm_compute; reflexivity|].
  intros floor.
  destruct (never_fits_keeps_shrinking unit (string * list string) unit
              passage_prompt no_encoding char_encoder small_model long_request 0 2
              ltac:(lia) long_request_never_fits
              (Z.to_nat (301 - floor)) small_model 300 (evolves_refl _ _ _ _ _))
    as (ml & s' & Hrun & Hml).
  exists (Z.to_nat (301 - floor)), ml, s'. split; [exact Hrun|lia].
Qed.

(** C4, refuted as stated: [0 < 2], yet on [long_request] no number of
    passes makes [create_prompt] return. *)
Lemma shrink_loop_can_run_forever :
  0 < 2
  /\ (forall fuel, exists ml self',
         create_prompt unit (string * list string) unit passage_prompt
           no_encoding char_encoder fuel small_model long_request 0 2
           = (Shrinking ml, self')).
Proof.
  split; [lia|]. intros fuel.
  destruct (never_fits_keeps_shrinking unit (string * list string) unit
              passage_prompt no_encoding char_encoder small_model long_request 0 2
              ltac:(lia) long_request_never_fits
              fuel small_model 300 (evolves_refl _ _ _ _ _))
    as (ml & s' & Hrun & _).
  exists ml, s'. exact Hrun.
Qed.

Lemma shrink_loop_has_no_floor_witness :
  exists ml' self',
    create_prompt unit (string * list string) unit passage_prompt
      no_encoding char_encoder 7 small_model long_request 0 2
      = (Shrinking ml', self')
    /\ ml' <= 300 * (_window_size unit unit small_model / (2 - 0)) - Z.of_nat 7.
Proof.
  refine (proj2 (shrink_loop_has_no_floor unit (string * list string) unit
                   passage_prompt no_encoding char_encoder
                   7 small_model long_request 0 2 _) long_request_never_fits).
  discriminate.
Defined.

Lemma shrink_loop_progress_witness :
  (fst (pass unit (string * list string) unit passage_prompt
          no_encoding char_encoder small_model short_request 0 2 300)
     = Shrink (300 - shrink_step unit (string * list string) unit passage_prompt
                       no_encoding char_encoder small_model short_request 0 2 300)
   /\ 1 <= shrink_step unit (string * list string) unit passage_prompt
              no_encoding char_encoder small_model short_request 0 2 300
   /\ shrink_step unit (string * list string) unit passage_prompt
         no_encoding char_encoder small_model short_request 0 2 300 = 4)
  /\ exists p n self',
       create_prompt unit (string * list string) unit passage_prompt
         no_encoding char_encoder 301 small_model short_request 0 2
         = (Finished (Returned (p, n)), self').
Proof.
  destruct (shrink_loop_progress unit (string * list string) unit passage_prompt
              no_encoding char_encoder small_model short_request 0 2 eq_refl)
    as [Hstep Hterm].
  split.
  - destruct (Hstep 300 eq_refl) as (H1 & H2 & _).
    split; [exact H1|]. split; [exact H2|]. vm_compute. reflexivity.
  - apply (Hterm 0 short_request_fits_when_cut 301%nat).
    vm_compute. apply le_n.
Defined.

Lemma create_prompt_zero_division_witness :
  create_prompt unit (string * list string) unit passage_prompt
    no_encoding char_encoder 4 small_model long_request 2 2
    = (Finished (Raised ZeroDivisionError), small_model)
  /\ forall e self',
       create_prompt unit (string * list string) unit passage_prompt
         no_encoding char_encoder 100 small_model short_request 0 2
         <> (Finished (Raised e), self').
Proof.
  split.
  - exact (proj1 (create_prompt_zero_division unit (string * list string) unit
                    passage_prompt no_encoding char_encoder
                    4 small_model long_request 2 2) eq_refl).
  - exact (proj2 (proj2 (create_prompt_zero_division unit (string * list string) unit
                    passage_prompt no_encoding char_encoder
                    100 small_model short_request 0 2) eq_refl)).
Defined.

Lemma rerank_batch_sequential_witness :
  length [["c"; "b"; "a"]; ["e"; "d"]] = length two_requests
  /\ sweeps string (list string) (list string) reversing_sweep
       (resolve 0 100 false false no_kwargs)
       [] two_requests [["c"; "b"; "a"]; ["e"; "d"]] ["q1"; "q2"]
  /\ forall (i : nat) (request : Request string),
       two_requests !! i = Some request ->
       exists wi wi' result,
         [["c"; "b"; "a"]; ["e"; "d"]] !! i = Some result
         /\ sweep string (list string) (list string) reversing_sweep
              (resolve 0 100 false false no_kwargs) wi request
            = (Returned result, wi').
Proof.
  apply (rerank_batch_sequential string (list string) (list string)
           reversing_sweep [] ["q1"; "q2"] two_requests
           [["c"; "b"; "a"]; ["e"; "d"]] 0 100 false false no_kwargs).
  vm_compute. reflexivity.
Defined.

Lemma cursor_in_range_after_init_witness :
  normalise_keys three_keys = Returned (_keys unit unit negative_start)
  /\ 0 <= _cur_key_id unit unit negative_start
        < Z.of_nat (length (_keys unit unit negative_start))
  /\ _cur_key_id unit unit negative_start
     = or_int (Some (-7)) 0 mod Z.of_nat (length (_keys unit unit negative_start))
  /\ _keys unit unit negative_start !! Z.to_nat (_cur_key_id unit unit negative_start)
     = Some (api_key (client unit unit negative_start)).
Proof.
  apply (cursor_in_range_after_init unit unit accepting_base
           "gpt-4o-mini" 4096 None None 0 None 20
           three_keys (Some (-7)) None None None negative_start).
  vm_compute. reflexivity.
Defined.

Example cursor_for_absent_start :
  _cur_key_id unit unit <$> (match pooled_backend None with
                             | Returned b => Some b | Raised _ => None end)
  = Some 0.
Proof. vm_compute. reflexivity. Qed.

Example cursor_for_start_beyond_pool :
  _cur_key_id unit unit <$> (match pooled_backend (Some 10) with
                             | Returned b => Some b | Raised _ => None end)
  = Some 1.
Proof. vm_compute. reflexivity. Qed.

(** *** Further runs and properties that fix the mode or the caller *)

(** A service whose first request overflows the context window. *)
Definition too_long_at_once (n : nat) : reply :=
  Throws "This model's maximum context length is 4097 tokens.".

(** Two short passages: the prompt fits without any cut. *)
Definition tiny_request : string * list string := ("rank", ["a"; "b"]).

(** An instance whose cache holds an estimate. *)
Definition warm_model : instance unit unit :=
  {| _model := "gpt-4o-mini"; _context_size := 64; _window_size := 2;
     _num_few_shot_examples := 0; _examples := []; _inference_handler := tt;
     _output_token_estimate := Some 8 |}.

(** A sweep that refuses a Request without candidates. *)
Definition picky_sweep (w : list string) (request : Request string)
    (rank_start rank_end window_size stride : Z)
    (shuffle_candidates logging populate : bool)
  : outcome (list string) * list string :=
  match candidates string request with
  | [] => (Raised (IndexError), w ++ [query string request])
  | cs => (Returned (rev cs), w ++ [query string request])
  end.

Definition openrouter_site : gmap string string :=
  <["site_url" := "https://example.org"]> ∅.

Definition openrouter_backend : backend unit unit :=
  {| fields := {| _model := "openai/gpt-4o"; _context_size := 4096;
                  _window_size := 20; _num_few_shot_examples := 0;
                  _examples := []; _inference_handler := tt;
                  _output_token_estimate := None |};
     _keys := ["sk-or"];
     _cur_key_id := 0;
     openrouter_config := openrouter_site;
     client := {| api_key := "sk-or"; http_client := None;
                  base_url := Some "https://openrouter.ai/api/v1";
                  default_headers :=
                    Some (<["HTTP-Referer" := "https://example.org"]> ∅) |} |}.

Local Close Scope Z_scope.

(** X24. An unsupported completion mode is not reported as such: whatever
    the service and [return_text] are, no request is sent, the call sleeps
    three times, and it ends in [UnboundLocalError]. *)
Theorem unspecified_mode_sends_nothing (api : nat -> reply) (return_text : bool) :
  _call_completion api UNSPECIFIED return_text
  = (Raised (UnboundLocalError "completion"),
     {| completion := None; calls := 0; trace := [Sleep; Sleep; Sleep] |}).
Proof. vm_compute. reflexivity. Qed.

Lemma first_success_is_returned_witness :
  fst (_call_completion empty_then_ranking CHAT true) = Returned (VText "[2] > [1]")
  /\ calls (snd (_call_completion empty_then_ranking CHAT true)) = 2
  /\ trace (snd (_call_completion empty_then_ranking CHAT true))
     = retries CHAT 1 ++ [Call CHAT (timeout_of CHAT)].
Proof.
  refine (first_success_is_returned empty_then_ranking CHAT true 1
            {| choice_text := "[2] > [1]" |} _ _ _ _ _).
  - discriminate.
  - lia.
  - intros j Hj. assert (j = 0) as -> by lia. reflexivity.
  - reflexivity.
  - intros _. discriminate.
Defined.

Lemma all_requests_raising_is_unbound_witness :
  fst (_call_completion always_rate_limited TEXT false)
    = Raised (UnboundLocalError "completion")
  /\ calls (snd (_call_completion always_rate_limited TEXT false)) = 3
  /\ trace (snd (_call_completion always_rate_limited TEXT false)) = retries TEXT 3.
Proof.
  refine (all_requests_raising_is_unbound always_rate_limited TEXT false
            "Rate limit reached" "Rate limit reached" "Rate limit reached"
            _ eq_refl eq_refl eq_refl _ _ _).
  - discriminate.
  - vm_compute. reflexivity.
  - vm_compute. reflexivity.
  - vm_compute. reflexivity.
Defined.

Lemma returned_text_is_last_reply_witness :
  0 < calls (snd (_call_completion empty_then_ranking CHAT true))
  /\ empty_then_ranking
       (pred (calls (snd (_call_completion empty_then_ranking CHAT true))))
     = Responds {| choice_text := "[2] > [1]" |}.
Proof.
  refine (returned_text_is_last_reply empty_then_ranking CHAT true "[2] > [1]"
            eq_refl _ _ _ _).
  - vm_compute. reflexivity.
  - discriminate.
  - discriminate.
  - discriminate.
Defined.

Local Open Scope Z_scope.

(** X25. [run_llm] does not raise on the two errors [_call_completion]
    short-circuits: when the first request fails with a context-length or
    content-filter message, it returns the sentinel string as if it were
    the model's response, with the sentinel's own token count. *)
Theorem run_llm_returns_sentinel_as_response
    (Handler Example : Type) (get_encoding : string -> option encoder)
    (cl100k_base : encoder) (api : nat -> reply)
    (self : instance Handler Example) (p : prompt) (msg : string) :
  api 0%nat = Throws msg ->
  contains ctx_marker msg = true \/ contains filter_marker msg = true ->
  fst (run_llm Handler Example get_encoding cl100k_base api self p)
  = Returned
      (let sentinel := if contains ctx_marker msg
                       then reduce_length_sentinel else filtered_sentinel in
       (sentinel,
        len (encoding_for Handler Example get_encoding cl100k_base self sentinel))).
Proof.
  intros Hapi Hmark. unfold run_llm, _call_completion.
  cbn [attempts]. unfold try_body. cbn [fresh calls]. rewrite Hapi. cbn [str].
  destruct (contains ctx_marker msg) eqn:Hc; [reflexivity|].
  destruct Hmark as [Hm|Hm]; [discriminate|]. rewrite Hm. reflexivity.
Qed.

Lemma run_llm_returns_sentinel_as_response_witness :
  fst (run_llm unit unit no_encoding char_encoder too_long_at_once small_model
         (PText "rank"))
  = Returned ("ERROR::reduce_length", 20).
Proof.
  refine (run_llm_returns_sentinel_as_response unit unit no_encoding char_encoder
            too_long_at_once small_model (PText "rank")
            "This model's maximum context length is 4097 tokens." eq_refl _).
  left. vm_compute. reflexivity.
Defined.

Lemma foreign_window_bypasses_cache_witness :
  num_output_tokens unit unit no_encoding char_encoder warm_model (Some 3)
  = (len (encoding_for unit unit no_encoding char_encoder warm_model
            (ranking_skeleton 3)) - 1,
     warm_model).
Proof.
  apply (foreign_window_bypasses_cache unit unit no_encoding char_encoder
           warm_model 3).
  discriminate.
Defined.

Lemma filled_cache_is_kept_witness :
  snd (num_output_tokens unit unit no_encoding char_encoder warm_model None)
    = warm_model
  /\ (8 = 0 ->
      fst (num_output_tokens unit unit no_encoding char_encoder warm_model None)
      = len (encoding_for unit unit no_encoding char_encoder warm_model
               (ranking_skeleton
                  (default (_window_size unit unit warm_model) None))) - 1)
  /\ (8 <> 0 ->
      fst (num_output_tokens unit unit no_encoding char_encoder warm_model None) = 8).
Proof.
  exact (filled_cache_is_kept unit unit no_encoding char_encoder
           warm_model None 8 eq_refl).
Defined.

Lemma ranking_skeleton_shape_witness :
  ranking_skeleton (2 + 1)
  = ranking_skeleton 2 +:+ (" > " +:+ ("[" +:+ pretty (2 + 1) +:+ "]")).
Proof.
  apply (proj2 (proj2 ranking_skeleton_shape) 2). lia.
Defined.

Lemma fitting_prompt_is_not_shrunk_witness :
  fst (create_prompt unit (string * list string) unit passage_prompt
         no_encoding char_encoder 1 small_model tiny_request 0 2)
  = Finished
      (Returned
         (passage_prompt tt tiny_request 0 2
            (300 * (_window_size unit unit small_model / (2 - 0))) 0 [],
          rendered_tokens unit (string * list string) unit passage_prompt
            no_encoding char_encoder small_model tiny_request 0 2
            (300 * (_window_size unit unit small_model / (2 - 0))))).
Proof.
  apply (fitting_prompt_is_not_shrunk unit (string * list string) unit
           passage_prompt no_encoding char_encoder 0 small_model tiny_request 0 2).
  - discriminate.
  - vm_compute. discriminate.
Defined.

Lemma returned_prompt_is_a_rendering_witness :
  exists max_length,
    max_length <= 300 * (_window_size unit unit small_model / (2 - 0))
    /\ PMessages
         [[("role", "user");
           ("content", "rankthe quick brown fox jupack my box with five ")]]
       = passage_prompt tt short_request 0 2 max_length 0 []
    /\ 55 = rendered_tokens unit (string * list string) unit passage_prompt
              no_encoding char_encoder small_model short_request 0 2 max_length.
Proof.
  eapply (returned_prompt_is_a_rendering unit (string * list string) unit
            passage_prompt no_encoding char_encoder
            100 small_model short_request 0 2).
  vm_compute. reflexivity.
Defined.

Lemma initial_budget_edges_witness :
  create_prompt unit (string * list string) unit passage_prompt
    no_encoding char_encoder 0 small_model short_request 0 5
  = (Shrinking 0, small_model).
Proof.
  apply (proj1 (initial_budget_edges unit (string * list string) unit
                  passage_prompt no_encoding char_encoder
                  small_model short_request 0 5)).
  vm_compute. split; [discriminate|reflexivity].
Defined.

Lemma failing_sweep_aborts_batch_witness :
  rerank_batch string (list string) (list string) picky_sweep []
    ([ {| query := "q1"; candidates := ["a"; "b"] |} ]
     ++ {| query := "q2"; candidates := [] |}
        :: [ {| query := "q3"; candidates := ["c"] |} ])
    0 100 false false no_kwargs
  = (Raised IndexError, ["q1"; "q2"]).
Proof.
  apply (failing_sweep_aborts_batch string (list string) (list string) picky_sweep
           [] ["q1"] ["q1"; "q2"]
           [ {| query := "q1"; candidates := ["a"; "b"] |} ] [["b"; "a"]]).
  - econstructor; [reflexivity|constructor].
  - reflexivity.
Defined.

Lemma rerank_batch_app_witness :
  rerank_batch string (list string) (list string) reversing_sweep []
    ([ {| query := "q1"; candidates := ["a"; "b"; "c"] |} ]
     ++ [ {| query := "q2"; candidates := ["d"; "e"] |} ])
    0 100 false false no_kwargs
  = (Returned ([["c"; "b"; "a"]] ++ [["e"; "d"]]), ["q1"; "q2"]).
Proof.
  apply (rerank_batch_app string (list string) (list string) reversing_sweep
           [] ["q1"] ["q1"; "q2"]).
  - vm_compute. reflexivity.
  - vm_compute. reflexivity.
Defined.

Lemma init_argument_errors_witness :
  __init__ unit unit accepting_base "gpt-4o-mini" 4096 (Some RankLLM.MONOT5) None
    0 None 20 three_keys None None None None
  = Raised (ValueError
      ("unsupported prompt mode for GPT models: " +:+ PromptMode_value RankLLM.MONOT5
       +:+ ", expected rank_GPT, rank_GPT_APEER or LRL.")).
Proof.
  apply (proj2 (init_argument_errors unit unit accepting_base "gpt-4o-mini" 4096
                  (Some RankLLM.MONOT5) None 0 None 20 three_keys None None None None)
           RankLLM.MONOT5); try discriminate. reflexivity.
Defined.

Lemma single_key_is_wrapped_witness :
  _keys unit unit openrouter_backend = ["sk-or"]
  /\ _cur_key_id unit unit openrouter_backend = 0
  /\ api_key (client unit unit openrouter_backend) = "sk-or".
Proof.
  apply (single_key_is_wrapped unit unit accepting_base
           "openai/gpt-4o" 4096 None None 0 None 20 "sk-or" (Some 5) None
           (Some "https://openrouter.ai/api/v1") (Some openrouter_site)
           openrouter_backend).
  vm_compute. reflexivity.
Defined.

Lemma headers_only_for_openrouter_witness :
  (exists base, Some "https://openrouter.ai/api/v1" = Some base
                /\ base_url (client unit unit openrouter_backend) = Some base
                /\ contains "openrouter.ai" base = true)
  /\ (<["HTTP-Referer" := "https://example.org"]> ∅ : gmap string string)
       !! "HTTP-Referer"
     = default ∅ (Some openrouter_site) !! "site_url"
  /\ (<["HTTP-Referer" := "https://example.org"]> ∅ : gmap string string)
       !! "X-Title"
     = default ∅ (Some openrouter_site) !! "site_name"
  /\ (forall k, k <> "HTTP-Referer" -> k <> "X-Title" ->
        (<["HTTP-Referer" := "https://example.org"]> ∅ : gmap string string) !! k
        = None)
  /\ (<["HTTP-Referer" := "https://example.org"]> ∅ : gmap string string) <> ∅.
Proof.
  apply (headers_only_for_openrouter unit unit accepting_base
           "openai/gpt-4o" 4096 None None 0 None 20 (KeysStr "sk-or") (Some 5) None
           (Some "https://openrouter.ai/api/v1") (Some openrouter_site)
           openrouter_backend).
  - vm_compute. reflexivity.
  - reflexivity.
Defined.

End SafeOpenaiBackend.

(** ** [api/server.py]: the Flask service around one loaded model *)

Module Server.
Import Py.
Local Open Scope list_scope.
Local Open Scope Z_scope.

(** What [create_app] asks to be constructed.  Arguments the code does not
    pass are [None]. *)
Inductive load_request : Type :=
  | LoadListwiseOS (model name : string) (context_size : Z)
      (prompt_template_path : string) (num_few_shot_examples : Z)
      (device : string) (num_gpus : Z) (variable_passages : bool)
      (window_size : Z) (system_message : option string)
      (use_alpha use_logits : option bool)
  | LoadSafeOpenai (model : string) (context_size : Z)
      (prompt_template_path : string) (num_few_shot_examples : Z)
      (use_azure_openai : bool)
  | LoadIdentityReranker.

Definition zephyr_template : string :=
  "src/rank_llm/rerank/prompt_templates/rank_zephyr_template.yaml".

Definition gpt_template : string :=
  "src/rank_llm/rerank/prompt_templates/rank_gpt_template.yaml".

Definition rankllm_system_message : string :=
  "You are RankLLM, an intelligent assistant that can rank passages based on their relevancy to the query.".

(** The [if]/[elif] chain of [create_app]. *)
Definition load_for (model : string) (use_azure_openai : bool) : option load_request :=
  if String.eqb model "first_mistral" then
    Some (LoadListwiseOS "castorini/first_mistral" model 8192 zephyr_template 0
            "cuda" 1 true 20 (Some rankllm_system_message) (Some true) (Some true))
  else if String.eqb model "rank_zephyr" then
    Some (LoadListwiseOS ("castorini/" +:+ model +:+ "_7b_v1_full") model 4096
            zephyr_template 0 "cuda" 1 true 20 (Some rankllm_system_message)
            None None)
  else if String.eqb model "rank_vicuna" then
    Some (LoadListwiseOS ("castorini/" +:+ model +:+ "_7b_v1") model 4096
            zephyr_template 0 "cuda" 1 false 20 None None None)
  else if contains "gpt" model then
    Some (LoadSafeOpenai model 8192 gpt_template 0 use_azure_openai)
  else if String.eqb model "identity_reranker" then Some LoadIdentityReranker
  else None.

(** The body of a response and the effects of one [search]. *)
Inductive body (Json : Type) : Type :=
  | ErrorBody (msg : string)
  | JsonBody (j : Json).
Arguments ErrorBody {Json} msg.
Arguments JsonBody {Json} j.

Inductive RetrievalMode : Type := DATASET.
Inductive RetrievalMethod : Type := BM25.

Section App.

(** The model classes, [retrieve_and_rerank], Flask's conversions and
    [str.lower] live outside this file. *)
Variable Coordinator : Type.
Variable construct : load_request -> outcome Coordinator.
Variable get_name : Coordinator -> string.
Variable Json : Type.
Variable parse_int : string -> option Z.
Variable lower : string -> string.

(** The keyword arguments of the one call to [retrieve_and_rerank]. *)
Record rr_call : Type := {
  rr_dataset : string;
  rr_retrieval_mode : RetrievalMode;
  rr_query : option string;
  rr_model_path : string;
  rr_host : string;
  rr_interactive : bool;
  rr_top_k_rerank : Z;
  rr_top_k_retrieve : Z;
  rr_qid : option string;
  rr_populate_invocations_history : bool;
  rr_default_model_coordinator : option Coordinator;
  rr_num_passes : Z;
  rr_retrieval_method : RetrievalMethod;
  rr_print_prompts_responses : bool
}.

Variable retrieve_and_rerank : rr_call -> outcome (list Json * Coordinator).

Inductive effect : Type :=
  | EmptyCudaCache
  | RetrieveAndRerank (c : rr_call).

(** [create_app]: the module-level [default_model_coordinator] it leaves,
    with the port it hands back. *)
Definition create_app (model : string) (port : Z) (use_azure_openai : bool)
  : outcome (Coordinator * Z) :=
  match load_for model use_azure_openai with
  | None => Raised (ValueError ("Unsupported model: " +:+ model))
  | Some r =>
      match construct r with
      | Raised e => Raised e
      | Returned c => Returned (c, port)
      end
  end.

(** [request.args.get(key, default=d, type=int)]: the default when the key
    is absent or its value does not convert. *)
Definition get_int (args : gmap string string) (key : string) (d : Z) : Z :=
  match args !! key with
  | None => d
  | Some v => default d (parse_int v)
  end.

(** What one [search] leaves: the response with its status, the
    module-level coordinator, and the effects in order. *)
Record served : Type := {
  response : body Json * Z;
  coordinator : option Coordinator;
  effects : list effect
}.

Definition search (g : option Coordinator)
    (model_path dataset retriever_host : string) (args : gmap string string)
  : served :=
  let query := args !! "query" in
  let top_k_retrieve := get_int args "hits_retriever" 20 in
  let top_k_rerank := get_int args "hits_reranker" 10 in
  let qid := args !! "qid" in
  let num_passes := get_int args "num_passes" 1 in
  let retrieval_method := default "bm25" (args !! "retrieval_method") in
  if contains "bm25" (lower retrieval_method) then
    let switch :=
      match g with
      | Some c => negb (String.eqb model_path (get_name c))
      | None => false
      end in
    let g1 := if switch then None else g in
    let cleared := if switch then [EmptyCudaCache] else [] in
    let call :=
      {| rr_dataset := dataset; rr_retrieval_mode := DATASET;
         rr_query := query; rr_model_path := model_path;
         rr_host := "http://localhost:" +:+ retriever_host;
         rr_interactive := true;
         rr_top_k_rerank := top_k_rerank; rr_top_k_retrieve := top_k_retrieve;
         rr_qid := qid; rr_populate_invocations_history := false;
         rr_default_model_coordinator := g1;
         rr_num_passes := num_passes; rr_retrieval_method := BM25;
         rr_print_prompts_responses := false |} in
    match retrieve_and_rerank call with
    | Raised e =>
        {| response := (ErrorBody (str e), 500); coordinator := g1;
           effects := cleared ++ [RetrieveAndRerank call] |}
    | Returned (results, model_coordinator) =>
        match SafeOpenaiBackend.py_index results 0 with
        | Returned first =>
            {| response := (JsonBody first, 200);
               coordinator := Some model_coordinator;
               effects := cleared ++ [RetrieveAndRerank call] |}
        | Raised e =>
            {| response := (ErrorBody (str e), 500);
               coordinator := Some model_coordinator;
               effects := cleared ++ [RetrieveAndRerank call] |}
        end
    end
  else
    {| response := (ErrorBody "Retrieval method must be BM25", 500);
       coordinator := g; effects := [] |}.

(** The calls among the effects. *)
Definition calls_of (l : list effect) : list rr_call :=
  flat_map (fun e => match e with RetrieveAndRerank c => [c] | EmptyCudaCache => [] end) l.

(** X26. Which model names [create_app] accepts: every name containing
    ["gpt"] loads the OpenAI coordinator under that very name with an 8192
    token context; a name is refused, with [ValueError: Unsupported model],
    exactly when it is none of [first_mistral], [rank_zephyr],
    [rank_vicuna], [identity_reranker] and does not contain ["gpt"], and
    then nothing is constructed. *)
Theorem create_app_model_dispatch (model : string) (port : Z) (use_azure_openai : bool) :
  (contains "gpt" model = true ->
     load_for model use_azure_openai
     = Some (LoadSafeOpenai model 8192 gpt_template 0 use_azure_openai))
  /\ (load_for model use_azure_openai = None <->
        model <> "first_mistral" /\ model <> "rank_zephyr"
        /\ model <> "rank_vicuna" /\ model <> "identity_reranker"
        /\ contains "gpt" model = false)
  /\ (load_for model use_azure_openai = None ->
        create_app model port use_azure_openai
        = Raised (ValueError ("Unsupported model: " +:+ model))).
Proof.
  split; [|split].
  - intros Hg. unfold load_for.
    destruct (String.eqb_spec model "first_mistral") as [->|_];
      [vm_compute in Hg; discriminate|].
    destruct (String.eqb_spec model "rank_zephyr") as [->|_];
      [vm_compute in Hg; discriminate|].
    destruct (String.eqb_spec model "rank_vicuna") as [->|_];
      [vm_compute in Hg; discriminate|].
    now rewrite Hg.
  - unfold load_for.
    destruct (String.eqb_spec model "first_mistral") as [->|N1];
      [split; [discriminate|intros (H & _); congruence]|].
    destruct (String.eqb_spec model "rank_zephyr") as [->|N2];
      [split; [discriminate|intros (_ & H & _); congruence]|].
    destruct (String.eqb_spec model "rank_vicuna") as [->|N3];
      [split; [discriminate|intros (_ & _ & H & _); congruence]|].
    destruct (contains "gpt" model) eqn:Hg;
      [split; [discriminate|intros (_ & _ & _ & _ & H); discriminate]|].
    destruct (String.eqb_spec model "identity_reranker") as [->|N4];
      [split; [discriminate|intros (_ & _ & _ & H & _); congruence]|].
    split; auto.
  - intros H. unfold create_app. now rewrite H.
Qed.

(** X27. What a 200 means: a [search] that answers 200 asked for BM25,
    called [retrieve_and_rerank] exactly once, got back a non-empty result
    list whose first element is the body of the response, and left the
    coordinator that call returned as the loaded model.  Every other
    outcome is a 500 with an error body. *)
Theorem search_ok_postcondition
    (g : option Coordinator) (model_path dataset retriever_host : string)
    (args : gmap string string) :
  let out := search g model_path dataset retriever_host args in
  (snd (response out) = 200 \/ snd (response out) = 500)
  /\ (snd (response out) = 500 -> exists msg, fst (response out) = ErrorBody msg)
  /\ (snd (response out) = 200 ->
      contains "bm25" (lower (default "bm25" (args !! "retrieval_method"))) = true
      /\ exists call first rest mc,
           calls_of (effects out) = [call]
           /\ retrieve_and_rerank call = Returned (first :: rest, mc)
           /\ response out = (JsonBody first, 200)
           /\ coordinator out = Some mc
           /\ rr_model_path call = model_path
           /\ rr_host call = "http://localhost:" +:+ retriever_host).
Proof.
  unfold search. cbn zeta.
  destruct (contains "bm25" _) eqn:Hbm.
  - set (switch := match g with Some c => negb _ | None => false end).
    match goal with |- context [retrieve_and_rerank ?c] => set (call := c) end.
    destruct (retrieve_and_rerank call) as [[results mc]|e] eqn:Hrr.
    + destruct results as [|first rest].
      * cbn. split; [auto|]. split; [eauto|]. intros H; discriminate.
      * change (SafeOpenaiBackend.py_index (first :: rest) 0) with (Returned first).
        cbn [response coordinator effects fst snd].
        split; [auto|]. split; [intros H; discriminate|]. intros _.
        split; [reflexivity|].
        exists call, first, rest, mc.
        unfold calls_of. rewrite flat_map_app.
        destruct switch; cbn; repeat split; auto.
    + cbn [response fst snd]. split; [auto|]. split; [eauto|]. intros H; discriminate.
  - cbn [response fst snd]. split; [auto|]. split; [eauto|]. intros H; discriminate.
Qed.

(** X28. A failed search for another model unloads the current one: when
    a model is loaded, a different [model_path] is asked for and
    [retrieve_and_rerank] raises, the response is a 500 carrying the text
    of the exception, the CUDA cache was emptied first, and no model is
    loaded afterwards. *)
Theorem failed_switch_unloads_model
    (c : Coordinator) (model_path dataset retriever_host : string)
    (args : gmap string string) (e : exn) :
  contains "bm25" (lower (default "bm25" (args !! "retrieval_method"))) = true ->
  model_path <> get_name c ->
  (forall call, rr_default_model_coordinator call = None ->
                rr_model_path call = model_path ->
                retrieve_and_rerank call = Raised e) ->
  let out := search (Some c) model_path dataset retriever_host args in
  response out = (ErrorBody (str e), 500)
  /\ coordinator out = None
  /\ exists call, effects out = [EmptyCudaCache; RetrieveAndRerank call].
Proof.
  intros Hbm Hne Hfail. unfold search. cbn zeta. rewrite Hbm.
  destruct (String.eqb_spec model_path (get_name c)) as [?|_]; [contradiction|].
  cbn [negb]. rewrite Hfail by reflexivity. cbn. eauto.
Qed.

(** X29. An empty result list is a 500, yet it switches the model: when
    [retrieve_and_rerank] returns no results, [response[0]] fails after the
    returned coordinator has already been stored, so the answer is a 500
    with ["list index out of range"] and the loaded model is the new one. *)
Theorem empty_results_still_replace_model
    (g : option Coordinator) (model_path dataset retriever_host : string)
    (args : gmap string string) (mc : Coordinator) :
  contains "bm25" (lower (default "bm25" (args !! "retrieval_method"))) = true ->
  (forall call, rr_model_path call = model_path ->
                retrieve_and_rerank call = Returned ([], mc)) ->
  let out := search g model_path dataset retriever_host args in
  response out = (ErrorBody "list index out of range", 500)
  /\ coordinator out = Some mc.
Proof.
  intros Hbm Hret. unfold search. cbn zeta. rewrite Hbm.
  rewrite Hret by reflexivity. cbn. auto.
Qed.

(** X30. The loaded model is reused: after a search that answered 200, a
    further search for the model of that name hands the coordinator the
    first one left to [retrieve_and_rerank], without emptying the CUDA
    cache. *)
Theorem loaded_model_is_reused
    (g : option Coordinator) (model_path dataset retriever_host : string)
    (args : gmap string string)
    (dataset' retriever_host' : string) (args' : gmap string string)
    (mc : Coordinator) :
  let first := search g model_path dataset retriever_host args in
  snd (response first) = 200 ->
  coordinator first = Some mc ->
  get_name mc = model_path ->
  contains "bm25" (lower (default "bm25" (args' !! "retrieval_method"))) = true ->
  let second := search (coordinator first) model_path dataset' retriever_host' args' in
  exists call,
    effects second = [RetrieveAndRerank call]
    /\ rr_default_model_coordinator call = Some mc.
Proof.
  intros first H200 Hc Hname Hbm second. subst second. rewrite Hc.
  unfold search. cbn zeta. rewrite Hbm, Hname, String.eqb_refl. cbn [negb].
  match goal with |- context [retrieve_and_rerank ?c] => set (call := c) end.
  exists call.
  destruct (retrieve_and_rerank call) as [[results mc']|e];
    [destruct (SafeOpenaiBackend.py_index results 0)|]; cbn; auto.
Qed.

End App.

(** A server whose retrieval returns two hits and a model named after the
    path it was asked for, fails for the dataset ["down"], and returns
    nothing for the dataset ["empty"]. *)
Definition echo_retrieval (c : rr_call string)
  : outcome (list string * string) :=
  if String.eqb (rr_dataset string c) "down"
  then Raised (Exception "connection refused")
  else if String.eqb (rr_dataset string c) "empty"
  then Returned ([], rr_model_path string c)
  else Returned (["hit-1"; "hit-2"], rr_model_path string c).

(** Inputs that are lower-case already. *)
Definition already_lower (s : string) : string := s.

Definition no_int (s : string) : option Z := None.

Definition plain_args : gmap string string := <["query" := "what is rust"]> ∅.

Lemma create_app_model_dispatch_witness :
  load_for "gpt-4o" false = Some (LoadSafeOpenai "gpt-4o" 8192 gpt_template 0 false).
Proof.
  apply (proj1 (create_app_model_dispatch string (fun _ => Returned "m")
                  "gpt-4o" 8082 false)).
  vm_compute. reflexivity.
Defined.

Lemma search_ok_postcondition_witness :
  contains "bm25" (already_lower (default "bm25" (plain_args !! "retrieval_method"))) = true
  /\ exists call first rest mc,
       calls_of string
         (effects string string
            (search string (fun c => c) string no_int already_lower echo_retrieval
               None "rank_zephyr" "dl19" "8081" plain_args)) = [call]
       /\ echo_retrieval call = Returned (first :: rest, mc)
       /\ response string string
            (search string (fun c => c) string no_int already_lower echo_retrieval
               None "rank_zephyr" "dl19" "8081" plain_args) = (JsonBody first, 200)
       /\ coordinator string string
            (search string (fun c => c) string no_int already_lower echo_retrieval
               None "rank_zephyr" "dl19" "8081" plain_args) = Some mc
       /\ rr_model_path string call = "rank_zephyr"
       /\ rr_host string call = "http://localhost:" +:+ "8081".
Proof.
  apply (proj2 (proj2 (search_ok_postcondition string (fun c => c) string no_int
                         already_lower echo_retrieval
                         None "rank_zephyr" "dl19" "8081" plain_args))).
  vm_compute. reflexivity.
Defined.

Lemma failed_switch_unloads_model_witness :
  response string string
    (search string (fun c => c) string no_int already_lower
       (fun _ => Raised (Exception "connection refused"))
       (Some "rank_vicuna") "rank_zephyr" "dl19" "8081" plain_args)
  = (ErrorBody "connection refused", 500)
  /\ coordinator string string
       (search string (fun c => c) string no_int already_lower
          (fun _ => Raised (Exception "connection refused"))
          (Some "rank_vicuna") "rank_zephyr" "dl19" "8081" plain_args)
     = None
  /\ exists call,
       effects string string
         (search string (fun c => c) string no_int already_lower
            (fun _ => Raised (Exception "connection refused"))
            (Some "rank_vicuna") "rank_zephyr" "dl19" "8081" plain_args)
       = [EmptyCudaCache string; RetrieveAndRerank string call].
Proof.
  apply (failed_switch_unloads_model string (fun c => c) string no_int already_lower
           (fun _ => Raised (Exception "connection refused"))
           "rank_vicuna" "rank_zephyr" "dl19" "8081" plain_args
           (Exception "connection refused")).
  - vm_compute. reflexivity.
  - discriminate.
  - intros call _ _. reflexivity.
Defined.

Lemma empty_results_still_replace_model_witness :
  response string string
    (search string (fun c => c) string no_int already_lower
       (fun _ => Returned ([], "rank_zephyr"))
       (Some "rank_vicuna") "rank_zephyr" "dl19" "8081" plain_args)
  = (ErrorBody "list index out of range", 500)
  /\ coordinator string string
       (search string (fun c => c) string no_int already_lower
          (fun _ => Returned ([], "rank_zephyr"))
          (Some "rank_vicuna") "rank_zephyr" "dl19" "8081" plain_args)
     = Some "rank_zephyr".
Proof.
  apply (empty_results_still_replace_model string (fun c => c) string no_int
           already_lower (fun _ => Returned ([], "rank_zephyr"))
           (Some "rank_vicuna") "rank_zephyr" "dl19" "8081" plain_args
           "rank_zephyr").
  - vm_compute. reflexivity.
  - intros call _. reflexivity.
Defined.

Lemma loaded_model_is_reused_witness :
  exists call,
    effects string string
      (search string (fun c => c) string no_int already_lower echo_retrieval
         (coordinator string string
            (search string (fun c => c) string no_int already_lower echo_retrieval
               None "rank_zephyr" "dl19" "8081" plain_args))
         "rank_zephyr" "dl20" "8081" plain_args)
    = [RetrieveAndRerank string call]
    /\ rr_default_model_coordinator string call = Some "rank_zephyr".
Proof.
  apply (loaded_model_is_reused string (fun c => c) string no_int already_lower
           echo_retrieval None "rank_zephyr" "dl19" "8081" plain_args
           "dl20" "8081" plain_args "rank_zephyr").
  - vm_compute. reflexivity.
  - vm_compute. reflexivity.
  - reflexivity.
  - vm_compute. reflexivity.
Defined.

End Server.
